(** * Ecole Directe helper: a shallow embedding of [ecole_directe_helper.py]

    The Python module talks to a remote provider over HTTP, keeps a
    question/answer cache in a JSON file and fires events on the host bus.
    Values are Python values as [json.loads] builds them, exceptions are
    results, and the effects (requests sent, files, events, log records) are
    threaded through an explicit world. *)

From Stdlib Require Import ZArith QArith String Ascii List Bool Lia.
From stdpp Require Import base option list strings gmap.

Set Warnings "-register-all".
Local Open Scope string_scope.
Local Open Scope Z_scope.
Local Open Scope list_scope.

(** ** Python values *)

(** What [json.loads] returns.  A [dict] keeps its insertion order, so an
    object is an association list; a [str] is a [string], one [ascii] for
    each character; a [float] is the rational it denotes. *)
Inductive json : Type :=
| JNull
| JBool (b : bool)
| JInt (z : Z)
| JFloat (q : Q)
| JStr (s : string)
| JArr (l : list json)
| JObj (kvs : list (string * json)).

(** A formatted text (an f-string, a URL, a payload): literal pieces and
    interpolated values, in order.  An interpolated [bytes] object, which
    Python formats as its representation and not as its text, is kept
    apart. *)
Inductive frag : Type :=
| Lit (s : string)
| Fmt (v : json)
| FmtBytes (content : string).

Definition text : Type := list frag.

(** The exceptions the module can meet; all of them derive from
    [Exception].  [RequestError] and [QCMError] are the module's own. *)
Inductive exn : Type :=
| RequestError (message : text)
| QCMError (message : string)
| KeyError (key : json)
| IndexError
| TypeError
| AttributeError (attr : string)
| ValueError
| OSError
| UnboundLocalError (name : string)
| ConnectionError.

Definition is_QCMError (e : exn) : bool :=
  match e with QCMError _ => true | _ => false end.

(** ** Pure computations that may raise *)

Inductive res (A : Type) : Type :=
| Ok (a : A)
| Err (e : exn).
Arguments Ok {A} a.
Arguments Err {A} e.

Definition rbind {A B} (r : res A) (k : A → res B) : res B :=
  match r with
  | Ok a => k a
  | Err e => Err e
  end.

Notation "x <-? r ;; k" := (rbind r (fun x => k))
  (at level 20, r at level 99, k at level 200, only parsing).

(** ** Dictionaries in insertion order *)

Fixpoint assoc {A} (k : string) (kvs : list (string * A)) : option A :=
  match kvs with
  | [] => None
  | (k', v) :: rest => if String.eqb k k' then Some v else assoc k rest
  end.

(** [d[k] = v]: an existing key keeps its place, a new one goes last. *)
Fixpoint assoc_set {A} (k : string) (v : A) (kvs : list (string * A))
  : list (string * A) :=
  match kvs with
  | [] => [(k, v)]
  | (k', v') :: rest =>
      if String.eqb k k' then (k', v) :: rest else (k', v') :: assoc_set k v rest
  end.

(** ** Python operators on JSON values *)

(** [bool(v)] *)
Definition truthy (v : json) : bool :=
  match v with
  | JNull => false
  | JBool b => b
  | JInt z => negb (z =? 0)%Z
  | JFloat q => negb (Qeq_bool q 0)
  | JStr s => negb (String.eqb s "")
  | JArr l => match l with [] => false | _ => true end
  | JObj kvs => match kvs with [] => false | _ => true end
  end.

(** [v == n] for an [int] literal [n] *)
Definition eq_int (v : json) (n : Z) : bool :=
  match v with
  | JBool b => (Z.b2z b =? n)%Z
  | JInt z => (z =? n)%Z
  | JFloat q => Qeq_bool q (inject_Z n)
  | _ => false
  end.

(** [v == s] for a [str] literal [s] *)
Definition eq_str (v : json) (s : string) : bool :=
  match v with
  | JStr s' => String.eqb s' s
  | _ => false
  end.

Definition is_substring (k s : string) : bool :=
  match String.index 0 k s with Some _ => true | None => false end.

(** [k in v] for a [str] [k] *)
Definition contains (k : string) (v : json) : res bool :=
  match v with
  | JObj kvs => Ok (match assoc k kvs with Some _ => true | None => false end)
  | JArr l => Ok (existsb (fun x => eq_str x k) l)
  | JStr s => Ok (is_substring k s)
  | _ => Err TypeError
  end.

(** [v[k]] for a [str] [k] *)
Definition getitem (v : json) (k : string) : res json :=
  match v with
  | JObj kvs =>
      match assoc k kvs with
      | Some x => Ok x
      | None => Err (KeyError (JStr k))
      end
  | _ => Err TypeError
  end.

(** [v[0]] *)
Definition getitem0 (v : json) : res json :=
  match v with
  | JArr l => match l with x :: _ => Ok x | [] => Err IndexError end
  | JStr s =>
      match s with
      | String c _ => Ok (JStr (String c ""))
      | EmptyString => Err IndexError
      end
  | JObj _ => Err (KeyError (JInt 0))
  | _ => Err TypeError
  end.

(** [v[k] = x] for a [str] [k]; the result is the mutated container *)
Definition setitem (v : json) (k : string) (x : json) : res json :=
  match v with
  | JObj kvs => Ok (JObj (assoc_set k x kvs))
  | _ => Err TypeError
  end.

(** [len(v)] *)
Definition len (v : json) : res Z :=
  match v with
  | JArr l => Ok (Z.of_nat (length l))
  | JStr s => Ok (Z.of_nat (String.length s))
  | JObj kvs => Ok (Z.of_nat (length kvs))
  | _ => Err TypeError
  end.

Fixpoint chars (s : string) : list json :=
  match s with
  | EmptyString => []
  | String c rest => JStr (String c "") :: chars rest
  end.

(** The elements a [for] loop over [v] visits *)
Definition iter (v : json) : res (list json) :=
  match v with
  | JArr l => Ok l
  | JStr s => Ok (chars s)
  | JObj kvs => Ok (map (fun kv => JStr (fst kv)) kvs)
  | _ => Err TypeError
  end.

(** A value used where the code needs a [str] ([str + v], [bytes(v, ..)]) *)
Definition as_str (v : json) : res string :=
  match v with
  | JStr s => Ok s
  | _ => Err TypeError
  end.

(** ** The world outside the module *)

(** One [requests.post] call. *)
Record request : Type := Request {
  req_url : text;
  req_data : text;
  req_headers : list (string * json);
  req_timeout : Z
}.

(** What comes back: the call raises, or there is a response with its raw
    content (the [bytes] of [response.content]) and, when the content is
    JSON, the value [response.json()] gives. *)
Inductive reply : Type :=
| NoReply
| Reply (content : string) (parsed : option json).

(** A file on disk, as [open] and [json.load] see it. *)
Inductive file : Type :=
| Unreadable
| Garbled
| Stored (j : json).

Inductive level : Type := DEBUG | INFO | WARNING | CRITICAL.

Inductive logarg : Type :=
| LText (t : text)
| LVal (v : json)
| LExn (e : exn).

Record log_record : Type := LogRecord {
  log_level : level;
  log_msg : logarg;
  log_args : list logarg
}.

Record world : Type := World {
  sent : list request;
  disk : gmap string file;
  disk_writable : bool;
  fired : list (string * json);
  logged : list log_record
}.

Definition with_sent (w : world) (r : request) : world :=
  World (sent w ++ [r]) (disk w) (disk_writable w) (fired w) (logged w).

Definition with_file (w : world) (path : string) (f : file) : world :=
  World (sent w) (<[path := f]> (disk w)) (disk_writable w) (fired w) (logged w).

Definition with_event (w : world) (ev : string * json) : world :=
  World (sent w) (disk w) (disk_writable w) (fired w ++ [ev]) (logged w).

Definition with_log (w : world) (r : log_record) : world :=
  World (sent w) (disk w) (disk_writable w) (fired w) (logged w ++ [r]).

(** ** Effectful computations *)

(** A call returns, raises, or is still running when the fuel of a loop is
    spent; the world it leaves behind is kept in each case. *)
Inductive outcome (A : Type) : Type :=
| Ret (a : A)
| Raise (e : exn)
| Diverge.
Arguments Ret {A} a.
Arguments Raise {A} e.
Arguments Diverge {A}.

Definition M (A : Type) : Type := world → outcome A * world.

Definition ret {A} (a : A) : M A := fun w => (Ret a, w).

Definition raise {A} (e : exn) : M A := fun w => (Raise e, w).

Definition bind {A B} (m : M A) (k : A → M B) : M B := fun w =>
  match m w with
  | (Ret a, w') => k a w'
  | (Raise e, w') => (Raise e, w')
  | (Diverge, w') => (Diverge, w')
  end.

Definition lift {A} (r : res A) : M A :=
  match r with
  | Ok a => ret a
  | Err e => raise e
  end.

Notation "x <- m ;; k" := (bind m (fun x => k))
  (at level 20, m at level 99, k at level 200, only parsing).

Notation "'run' m ;; k" := (bind m (fun _ => k))
  (at level 20, m at level 99, k at level 200, only parsing).

Definition log (l : level) (msg : logarg) (args : list logarg) : M unit :=
  fun w => (Ret tt, with_log w (LogRecord l msg args)).

Definition logf (l : level) (fmt : string) (args : list logarg) : M unit :=
  log l (LText [Lit fmt]) args.

(** [open(path)] followed by [json.load] *)
Definition load_json (path : string) : M json := fun w =>
  match disk w !! path with
  | None => (Raise OSError, w)
  | Some Unreadable => (Raise OSError, w)
  | Some Garbled => (Raise ValueError, w)
  | Some (Stored j) => (Ret j, w)
  end.

(** [open(path, "w")] followed by [json.dump] *)
Definition dump_json (path : string) (j : json) : M unit := fun w =>
  if disk_writable w then (Ret tt, with_file w path (Stored j))
  else (Raise OSError, w).

(** [hass.bus.fire] *)
Definition fire (event_type : string) (event_data : json) : M unit :=
  fun w => (Ret tt, with_event w (event_type, event_data)).

(** The double quote, for the payloads the code writes by hand. *)
Definition dq : string := String "034"%char "".

Definition APIURL : string := "https://api.ecoledirecte.com/v3".
Definition APIVERSION : string := "4.55.0".

(** [get_headers] *)
Definition get_headers (token : json) : list (string * json) :=
  let headers :=
    [ ("Accept", JStr "application/json, text/plain, */*");
      ("Accept-Encoding", JStr "gzip, deflate, br");
      ("Accept-language", JStr "fr,fr-FR;q=0.8,en-US;q=0.5,en;q=0.3");
      ("Connection", JStr "keep-alive");
      ("Content-Type", JStr "application/x-www-form-urlencoded");
      ("DNT", JStr "1");
      ("Host", JStr "api.ecoledirecte.com");
      ("Origin", JStr "https://www.ecoledirecte.com");
      ("Referer", JStr "https://www.ecoledirecte.com/");
      ("Sec-fetch-dest", JStr "empty");
      ("Sec-fetch-mode", JStr "cors");
      ("Sec-fetch-site", JStr "same-site");
      ("Sec-GPC", JStr "1");
      ("User-agent",
       JStr "Mozilla/5.0 (Windows NT 10.0; Win64; x64; rv:124.0) Gecko/20100101 Firefox/124.0") ] in
  match token with
  | JNull => headers
  | _ => assoc_set "X-Token" token headers
  end.

Definition is_None (v : json) : bool :=
  match v with JNull => true | _ => false end.

(** [if payload is None: payload = "data={}"] *)
Definition or_default (payload : option text) : text :=
  match payload with
  | None => [Lit "data={}"]
  | Some p => p
  end.

Section Transport.

(** The remote provider: its reply to a request, given the requests it has
    already received. *)
Variable provider : list request → request → reply.

(** [requests.post(url, data=payload, headers=headers, timeout=t)] *)
Definition requests_post (r : request) : M (string * option json) := fun w =>
  match provider (sent w) r with
  | NoReply => (Raise ConnectionError, with_sent w r)
  | Reply content parsed => (Ret (content, parsed), with_sent w r)
  end.

(** [get_response]: send a request and return the JSON body, or raise. *)
Definition get_response (token : json) (url : text) (payload : option text)
  : M json :=
  let payload := or_default payload in
  run logf DEBUG "URL: [%s] - Payload: [%s]" [LText url; LText payload] ;;
  response <- requests_post (Request url payload (get_headers token) 120) ;;
  resp_json <-
    match snd response with
    | Some j => ret j
    | None =>
        raise (RequestError
                 ([Lit "Error with URL:["] ++ url
                  ++ [Lit "]: "; FmtBytes (fst response)]))
    end ;;
  has_code <- lift (contains "code" resp_json) ;;
  if negb has_code then
    raise (RequestError
             ([Lit "Error with URL:["] ++ url ++ [Lit "]: json:["; Fmt resp_json; Lit "]"]))
  else
    code <- lift (getitem resp_json "code") ;;
    if eq_int code 250 && is_None token then
      run logf DEBUG "%s" [LVal resp_json] ;;
      ret resp_json
    else
      code <- lift (getitem resp_json "code") ;;
      if negb (eq_int code 200) then
        code <- lift (getitem resp_json "code") ;;
        message <- lift (getitem resp_json "message") ;;
        raise (RequestError
                 ([Lit "Error with URL:["] ++ url
                  ++ [Lit "] - Code "; Fmt code; Lit ": "; Fmt message]))
      else
        run logf DEBUG "%s" [LVal resp_json] ;;
        ret resp_json.

End Transport.

(** ** Domain objects *)

(** An instance of one of the module's classes is the dictionary of the
    attributes its constructor has set. *)
Abbreviation instance := (gmap string json).

Definition setattr (self : instance) (attr : string) (v : json) : instance :=
  <[attr := v]> self.

Definition getattr (self : instance) (attr : string) : res json :=
  match self !! attr with
  | Some v => Ok v
  | None => Err (AttributeError attr)
  end.

(** The loop [for module in ..: if module["enable"]: ..append(module["code"])] *)
Fixpoint enabled_codes (modules : list json) : res (list json) :=
  match modules with
  | [] => Ok []
  | module :: rest =>
      enable <-? getitem module "enable" ;;
      if truthy enable then
        code <-? getitem module "code" ;;
        codes <-? enabled_codes rest ;;
        Ok (code :: codes)
      else enabled_codes rest
  end.

(** [EDEleve.__init__]; an argument left out is [None]. *)
Definition EDEleve
  (data establishment eleve_id first_name last_name classe_id classe_name
     modules : json) : res instance :=
  let self : instance := ∅ in
  if is_None data then
    let self := setattr self "classe_id" classe_id in
    let self := setattr self "classe_name" classe_name in
    let self := setattr self "eleve_id" eleve_id in
    let self := setattr self "eleve_lastname" last_name in
    let self := setattr self "eleve_firstname" first_name in
    let self := setattr self "modules" modules in
    let self := setattr self "establishment" establishment in
    Ok self
  else
    has_classe <-? contains "classe" data ;;
    self <-? (if has_classe then
                classe <-? getitem data "classe" ;;
                id <-? getitem classe "id" ;;
                let self := setattr self "classe_id" id in
                classe <-? getitem data "classe" ;;
                libelle <-? getitem classe "libelle" ;;
                Ok (setattr self "classe_name" libelle)
              else Ok self) ;;
    id <-? getitem data "id" ;;
    let self := setattr self "eleve_id" id in
    nom <-? getitem data "nom" ;;
    let self := setattr self "eleve_lastname" nom in
    prenom <-? getitem data "prenom" ;;
    let self := setattr self "eleve_firstname" prenom in
    let self := setattr self "establishment" establishment in
    modules <-? getitem data "modules" ;;
    modules <-? iter modules ;;
    codes <-? enabled_codes modules ;;
    Ok (setattr self "modules" (JArr codes)).

(** [str.lower] on one character *)
Definition lower_char (c : ascii) : ascii :=
  let n := N_of_ascii c in
  if ((65 <=? n) && (n <=? 90)
      || (192 <=? n) && (n <=? 222) && negb (n =? 215))%N
  then ascii_of_N (n + 32)
  else c.

Fixpoint lower (s : string) : string :=
  match s with
  | EmptyString => EmptyString
  | String c rest => String (lower_char c) (lower rest)
  end.

(** [v.lower()] *)
Definition str_lower (v : json) : res string :=
  match v with
  | JStr s => Ok (lower s)
  | _ => Err (AttributeError "lower")
  end.

(** The character class [A-Za-z] *)
Definition is_letter (c : ascii) : bool :=
  let n := N_of_ascii c in
  ((65 <=? n) && (n <=? 90) || (97 <=? n) && (n <=? 122))%N.

(** [re.sub("[^A-Za-z]", repl, s)] *)
Fixpoint re_sub_non_letter (repl s : string) : string :=
  match s with
  | EmptyString => EmptyString
  | String c rest =>
      (if is_letter c then String c "" else repl) +:+ re_sub_non_letter repl rest
  end.

(** [EDEleve.get_fullname_lower] *)
Definition get_fullname_lower (self : instance) : res string :=
  firstname <-? getattr self "eleve_firstname" ;;
  firstname <-? str_lower firstname ;;
  lastname <-? getattr self "eleve_lastname" ;;
  lastname <-? str_lower lastname ;;
  Ok (re_sub_non_letter "_" firstname +:+ "_" +:+ re_sub_non_letter "_" lastname).

(** [EDEleve.get_fullname] *)
Definition get_fullname (self : instance) : res text :=
  firstname <-? getattr self "eleve_firstname" ;;
  lastname <-? getattr self "eleve_lastname" ;;
  Ok [Fmt firstname; Lit " "; Fmt lastname].

(** One block [if key in data: self.attr = data[key] else: self.attr = default] *)
Definition copy_or (data : json) (key attr : string) (default : json)
  (self : instance) : res instance :=
  present <-? contains key data ;;
  if present then
    v <-? getitem data key ;;
    Ok (setattr self attr v)
  else Ok (setattr self attr default).

(** [EDHomework.__init__] *)
Definition EDHomework (data pour_le : json) : res instance :=
  let self : instance := ∅ in
  self <-? copy_or data "matiere" "matiere" (JStr "") self ;;
  self <-? copy_or data "codeMatiere" "code_matiere" (JStr "") self ;;
  self <-? copy_or data "aFaire" "a_faire" (JStr "") self ;;
  self <-? copy_or data "idDevoir" "id_devoir" (JStr "") self ;;
  self <-? copy_or data "documentsAFaire" "documents_a_faire" (JStr "") self ;;
  self <-? copy_or data "donneLe" "donne_le" (JStr "") self ;;
  let self := setattr self "pour_le" pour_le in
  self <-? copy_or data "effectue" "effectue" (JStr "") self ;;
  self <-? copy_or data "interrogation" "interrogation" (JStr "") self ;;
  self <-? copy_or data "rendreEnLigne" "rendre_en_ligne" (JStr "") self ;;
  self <-? copy_or data "nbJourMaxRenduDevoir" "nb_jour_max_rendu_devoir" (JStr "") self ;;
  copy_or data "contenu" "contenu" (JStr "") self.

(** [EDGrade.__init__] *)
Definition EDGrade (data : json) : res instance :=
  let self : instance := ∅ in
  self <-? copy_or data "id" "id" (JStr "") self ;;
  self <-? copy_or data "devoir" "devoir" (JStr "") self ;;
  self <-? copy_or data "codePeriode" "code_periode" (JStr "") self ;;
  self <-? copy_or data "codeMatiere" "code_matiere" (JStr "") self ;;
  self <-? copy_or data "libelleMatiere" "libelle_matiere" (JStr "") self ;;
  self <-? copy_or data "codeSousMatiere" "code_sous_matiere" (JStr "") self ;;
  self <-? copy_or data "typeDevoir" "type_devoir" (JStr "") self ;;
  self <-? copy_or data "enLettre" "en_lettre" (JStr "") self ;;
  self <-? copy_or data "commentaire" "commentaire" (JStr "") self ;;
  self <-? copy_or data "uncSujet" "unc_sujet" (JStr "") self ;;
  self <-? copy_or data "uncCorrige" "unc_corrige" (JStr "") self ;;
  self <-? copy_or data "coef" "coef" (JStr "") self ;;
  self <-? copy_or data "noteSur" "note_sur" (JStr "") self ;;
  self <-? copy_or data "valeur" "valeur" (JStr "") self ;;
  self <-? copy_or data "nonSignificatif" "non_significatif" (JStr "") self ;;
  self <-? copy_or data "date" "date" (JStr "") self ;;
  self <-? copy_or data "dateSaisie" "date_saisie" (JStr "") self ;;
  self <-? copy_or data "valeurisee" "valeurisee" (JStr "") self ;;
  self <-? copy_or data "moyenneClasse" "moyenne_classe" (JStr "") self ;;
  self <-? copy_or data "minClasse" "min_classe" (JStr "") self ;;
  self <-? copy_or data "maxClasse" "max_classe" (JStr "") self ;;
  copy_or data "elementsProgramme" "elements_programme" (JStr "") self.

(** [EDLesson.__init__]; the [else] branch of the [end_date] block sets the
    attribute [tend_date]. *)
Definition EDLesson (data : json) : res instance :=
  let self : instance := ∅ in
  self <-? copy_or data "id" "id" (JStr "") self ;;
  self <-? copy_or data "text" "text" (JStr "") self ;;
  self <-? copy_or data "matiere" "matiere" (JStr "") self ;;
  self <-? copy_or data "codeMatiere" "codeMatiere" (JStr "") self ;;
  self <-? copy_or data "typeCours" "typeCours" (JStr "") self ;;
  self <-? copy_or data "start_date" "start_date" (JStr "") self ;;
  has_end_date <-? contains "end_date" data ;;
  self <-? (if has_end_date then
              v <-? getitem data "end_date" ;;
              Ok (setattr self "end_date" v)
            else Ok (setattr self "tend_date" (JStr ""))) ;;
  self <-? copy_or data "color" "color" (JStr "") self ;;
  self <-? copy_or data "dispensable" "dispensable" (JBool false) self ;;
  self <-? copy_or data "dispense" "dispense" (JStr "") self ;;
  self <-? copy_or data "prof" "prof" (JStr "") self ;;
  self <-? copy_or data "salle" "salle" (JStr "") self ;;
  self <-? copy_or data "classe" "classe" (JStr "") self ;;
  self <-? copy_or data "classeId" "classeId" (JStr "") self ;;
  self <-? copy_or data "classeCode" "classeCode" (JStr "") self ;;
  self <-? copy_or data "groupe" "groupe" (JStr "") self ;;
  self <-? copy_or data "groupeCode" "groupeCode" (JStr "") self ;;
  self <-? copy_or data "groupeId" "groupeId" (JStr "") self ;;
  self <-? copy_or data "icone" "icone" (JStr "") self ;;
  self <-? copy_or data "isFlexible" "isFlexible" (JBool false) self ;;
  self <-? copy_or data "isModifie" "isModifie" (JBool false) self ;;
  self <-? copy_or data "contenuDeSeance" "contenuDeSeance" (JBool false) self ;;
  self <-? copy_or data "devoirAFaire" "devoirAFaire" (JBool false) self ;;
  copy_or data "isAnnule" "isAnnule" (JBool false) self.

(** [EDSession]: every attribute is set when the constructor returns. *)
Record EDSession : Type := Session {
  session_token : json;
  session_id : json;
  session_identifiant : json;
  session_id_login : json;
  session_account_type : json;
  session_modules : list json;
  session_eleves : list instance
}.

(** [data["data"]["accounts"][0]] *)
Definition account (data : json) : res json :=
  d <-? getitem data "data" ;;
  accounts <-? getitem d "accounts" ;;
  getitem0 accounts.

(** The loop over [profile["eleves"]] *)
Fixpoint linked_eleves (data : json) (eleves : list json) : res (list instance) :=
  match eleves with
  | [] => Ok []
  | eleve :: rest =>
      acc <-? account data ;;
      establishment <-? getitem acc "nomEtablissement" ;;
      e <-? EDEleve eleve establishment JNull JNull JNull JNull JNull JNull ;;
      es <-? linked_eleves data rest ;;
      Ok (e :: es)
  end.

(** [EDSession.__init__] *)
Definition EDSession_init (data : json) : res EDSession :=
  token <-? getitem data "token" ;;
  acc <-? account data ;;
  id <-? getitem acc "id" ;;
  acc <-? account data ;;
  identifiant <-? getitem acc "identifiant" ;;
  acc <-? account data ;;
  id_login <-? getitem acc "idLogin" ;;
  acc <-? account data ;;
  account_type <-? getitem acc "typeCompte" ;;
  acc <-? account data ;;
  modules <-? getitem acc "modules" ;;
  modules <-? iter modules ;;
  modules <-? enabled_codes modules ;;
  if eq_str account_type "E" then
    acc <-? account data ;;
    establishment <-? getitem acc "nomEtablissement" ;;
    prenom <-? getitem acc "prenom" ;;
    nom <-? getitem acc "nom" ;;
    profile <-? getitem acc "profile" ;;
    classe <-? getitem profile "classe" ;;
    classe_id <-? getitem classe "id" ;;
    classe_name <-? getitem classe "libelle" ;;
    eleve <-? EDEleve JNull establishment id prenom nom classe_id classe_name
                (JArr modules) ;;
    Ok (Session token id identifiant id_login account_type modules [eleve])
  else
    acc <-? account data ;;
    profile <-? getitem acc "profile" ;;
    has_eleves <-? contains "eleves" profile ;;
    if has_eleves then
      eleves <-? getitem profile "eleves" ;;
      eleves <-? iter eleves ;;
      eleves <-? linked_eleves data eleves ;;
      Ok (Session token id identifiant id_login account_type modules eleves)
    else
      Ok (Session token id identifiant id_login account_type modules []).

(** ** Authentication handshake *)

(** The Python library functions the handshake calls on strings:
    [base64.b64decode(s).decode("utf-8")] ([None] when it raises),
    [base64.b64encode(bytes(s, "utf-8")).decode("ascii")] and
    [urllib.parse.quote(s, safe="")]. *)
Class PyLib : Type := {
  b64decode_utf8 : string → option string;
  b64encode_utf8 : string → string;
  quote : string → string
}.

Definition e_acute : string := String "233"%char "".

(** The warning logged when the provider refuses the cached answer. *)
Definition qcm_failed : string :=
  "qcm rat" +:+ e_acute +:+ " pour la question [%s], v" +:+ e_acute
  +:+ "rifier le fichier qcm.json. [%s]".

(** The message of the [QCMError] raised when the tries are spent. *)
Definition qcm_exhausted : string :=
  "V" +:+ e_acute +:+ "rifiez le fichier qcm.json, et rechargez l'int"
  +:+ e_acute +:+ "gration Ecole Directe.".

Definition login_url : text :=
  [Lit (APIURL +:+ "/login.awp?v=" +:+ APIVERSION)].

Definition qcm_get_url : text :=
  [Lit (APIURL +:+ "/connexion/doubleauth.awp?verbe=get&v=" +:+ APIVERSION)].

Definition qcm_post_url : text :=
  [Lit (APIURL +:+ "/connexion/doubleauth.awp?verbe=post&v=" +:+ APIVERSION)].

Definition qcm_path (config_path : string) : string :=
  config_path +:+ "/custom_components/ecole_directe/qcm.json".

(** [data[key]] on the configuration entry *)
Definition config (data : gmap string string) (key : string) : res string :=
  match data !! key with
  | Some s => Ok s
  | None => Err (KeyError (JStr key))
  end.

(** [try: body except Exception as e: handler e] *)
Definition try_except {A} (body : M A) (handler : exn → M A) : M A := fun w =>
  match body w with
  | (Raise e, w') => handler e w'
  | r => r
  end.

(** What one pass through the body of the [while] loop leaves: the loop goes
    on with the counter and the cache, or [break] was reached. *)
Inductive step : Type :=
| Continue (try_login : Z) (qcm_json : json)
| Break (try_login : Z) (qcm_json : json) (cn cv : json).

Section Handshake.

Context {lib : PyLib}.

(** The constant [EVENT_TYPE] of the package's [const] module. *)
Variable EVENT_TYPE : string.

Variable provider : list request → request → reply.

(** [get_qcm_connexion] *)
Definition get_qcm_connexion (token : json) : M json :=
  json_resp <- get_response provider token qcm_get_url None ;;
  has_data <- lift (contains "data" json_resp) ;;
  if has_data then lift (getitem json_resp "data")
  else
    run logf WARNING "get_qcm_connexion: [%s]" [LVal json_resp] ;;
    ret JNull.

(** The payload of an answer: the JSON object with the one field [choix],
    written by hand around the proposition. *)
Definition choix (proposition : string) : text :=
  [Lit ("data={" +:+ dq +:+ "choix" +:+ dq +:+ ": " +:+ dq);
   Lit proposition; Lit (dq +:+ "}")].

(** [post_qcm_connexion] *)
Definition post_qcm_connexion (token : json) (proposition : string) : M json :=
  json_resp <- get_response provider token qcm_post_url (Some (choix proposition)) ;;
  has_data <- lift (contains "data" json_resp) ;;
  if has_data then lift (getitem json_resp "data")
  else
    run logf WARNING "post_qcm_connexion: [%s]" [LVal json_resp] ;;
    ret JNull.

(** The loop [for proposition in propositions: rep.append(..)] *)
Fixpoint decode_all (propositions : list json) : res (list json) :=
  match propositions with
  | [] => Ok []
  | proposition :: rest =>
      s <-? as_str proposition ;;
      match b64decode_utf8 s with
      | None => Err ValueError
      | Some r =>
          rep <-? decode_all rest ;;
          Ok (JStr r :: rep)
      end
  end.

Section Session.

Variable data : gmap string string.
Variable config_path : string.

(** One pass through the body of [while try_login > 0]. *)
Definition iteration (login : json) (try_login : Z) (qcm_json : json) : M step :=
  token <- lift (getitem login "token") ;;
  qcm <- get_qcm_connexion token ;;
  question <- lift (getitem qcm "question") ;;
  question <- lift (as_str question) ;;
  question <- lift (match b64decode_utf8 question with
                    | Some q => Ok q
                    | None => Err ValueError
                    end) ;;
  known <- lift (if is_None qcm_json then Ok false else contains question qcm_json) ;;
  if known then
    answers <- lift (getitem qcm_json question) ;;
    n <- lift (len answers) ;;
    if n >? 1 then ret (Continue (try_login - 1) qcm_json)
    else
      answers <- lift (getitem qcm_json question) ;;
      answer <- lift (getitem0 answers) ;;
      answer <- lift (as_str answer) ;;
      let reponse := b64encode_utf8 answer in
      token <- lift (getitem login "token") ;;
      cn_et_cv <- post_qcm_connexion token reponse ;;
      if negb (truthy cn_et_cv) then
        run logf WARNING qcm_failed [LVal (JStr question); LVal cn_et_cv] ;;
        ret (Continue try_login qcm_json)
      else
        cn <- lift (getitem cn_et_cv "cn") ;;
        cv <- lift (getitem cn_et_cv "cv") ;;
        ret (Break try_login qcm_json cn cv)
  else
    propositions <- lift (getitem qcm "propositions") ;;
    propositions <- lift (iter propositions) ;;
    rep <- lift (decode_all propositions) ;;
    qcm_json <- lift (setitem qcm_json question (JArr rep)) ;;
    run dump_json (qcm_path config_path) qcm_json ;;
    username <- lift (config data "username") ;;
    let event_data :=
      JObj [("device_id", JStr ("ED - " +:+ username));
            ("type", JStr "new_qcm");
            ("question", JStr question)] in
    run fire EVENT_TYPE event_data ;;
    ret (Continue (try_login - 1) qcm_json).

(** The [while] loop; it yields the counter and, after a [break], the pair
    [(cn, cv)].  The fuel bounds the number of passes. *)
Fixpoint challenge_loop (fuel : nat) (login : json) (try_login : Z)
  (qcm_json : json) : M (Z * option (json * json)) :=
  if try_login >? 0 then
    match fuel with
    | O => fun w => (Diverge, w)
    | S fuel' =>
        s <- iteration login try_login qcm_json ;;
        match s with
        | Continue try_login' qcm_json' =>
            challenge_loop fuel' login try_login' qcm_json'
        | Break try_login' _ cn cv => ret (try_login', Some (cn, cv))
        end
    end
  else ret (try_login, None).

(** The part the two login payloads share: the fields [identifiant] and
    [motdepasse] with the quoted credentials, and [isRelogin]. *)
Definition credentials_of (username password : string) : string :=
  "data={" +:+ dq +:+ "identifiant" +:+ dq +:+ ":" +:+ dq
  +:+ quote username
  +:+ dq +:+ ", " +:+ dq +:+ "motdepasse" +:+ dq +:+ ":" +:+ dq
  +:+ quote password
  +:+ dq +:+ ", " +:+ dq +:+ "isRelogin" +:+ dq +:+ ": false".

Definition credentials : res string :=
  username <-? config data "username" ;;
  password <-? config data "password" ;;
  Ok (credentials_of username password).

(** The body of the [try] statement of [get_ecoledirecte_session]. *)
Definition handshake (fuel : nat) : M EDSession :=
  payload <- lift (prefix <-? credentials ;; Ok [Lit (prefix +:+ "}")]) ;;
  login <- get_response provider JNull login_url (Some payload) ;;
  code <- lift (getitem login "code") ;;
  login <-
    (if eq_int code 250 then
       qcm_json <- load_json (qcm_path config_path) ;;
       r <- challenge_loop fuel login 5 qcm_json ;;
       if fst r =? 0 then
         raise (QCMError qcm_exhausted)
       else
         match snd r with
         | None => raise (UnboundLocalError "cn")
         | Some (cn, cv) =>
             run logf DEBUG "cn: [%s] - cv: [%s]" [LVal cn; LVal cv] ;;
             payload <-
               lift (prefix <-? credentials ;;
                     cn <-? as_str cn ;;
                     cv <-? as_str cv ;;
                     Ok [Lit (prefix +:+ ", " +:+ dq +:+ "fa" +:+ dq +:+ ": [{"
                              +:+ dq +:+ "cn" +:+ dq +:+ ": " +:+ dq +:+ cn
                              +:+ dq +:+ ", " +:+ dq +:+ "cv" +:+ dq +:+ ": "
                              +:+ dq +:+ cv +:+ dq +:+ "}]}")]) ;;
             get_response provider JNull login_url (Some payload)
         end
     else ret login) ;;
  acc <- lift (account login) ;;
  identifiant <- lift (getitem acc "identifiant") ;;
  run logf INFO "Connection OK - identifiant: [{%s}]" [LVal identifiant] ;;
  lift (EDSession_init login).

(** [get_ecoledirecte_session] *)
Definition get_ecoledirecte_session (fuel : nat) : M (option EDSession) :=
  try_except
    (session <- handshake fuel ;; ret (Some session))
    (fun err =>
       match err with
       | QCMError _ =>
           run log WARNING (LExn err) [] ;;
           raise err
       | _ =>
           run log CRITICAL (LExn err) [] ;;
           ret None
       end).

(** [check_ecoledirecte_session] *)
Definition check_ecoledirecte_session (fuel : nat) : M bool :=
  try_except
    (session <- get_ecoledirecte_session fuel ;;
     ret (match session with Some _ => true | None => false end))
    (fun err =>
       match err with
       | QCMError _ => ret true
       | _ => raise err
       end).

End Session.

(** ** Data-fetch operations *)

(** [get_homeworks_by_date] *)
Definition get_homeworks_by_date (token : json) (eleve : instance) (date : json)
  : M json :=
  eleve_id <- lift (getattr eleve "eleve_id") ;;
  json_resp <-
    get_response provider token
      [Lit (APIURL +:+ "/Eleves/"); Fmt eleve_id; Lit "/cahierdetexte/"; Fmt date;
       Lit (".awp?verbe=get&v=" +:+ APIVERSION)]
      None ;;
  has_data <- lift (contains "data" json_resp) ;;
  if has_data then lift (getitem json_resp "data")
  else
    run logf WARNING "get_homeworks_by_date: [%s]" [LVal json_resp] ;;
    ret JNull.

(** [get_homeworks] *)
Definition get_homeworks (token : json) (eleve : instance) : M json :=
  eleve_id <- lift (getattr eleve "eleve_id") ;;
  json_resp <-
    get_response provider token
      [Lit (APIURL +:+ "/Eleves/"); Fmt eleve_id;
       Lit ("/cahierdetexte.awp?verbe=get&v=" +:+ APIVERSION)]
      None ;;
  has_data <- lift (contains "data" json_resp) ;;
  if has_data then lift (getitem json_resp "data")
  else
    run logf WARNING "get_homeworks: [%s]" [LVal json_resp] ;;
    ret JNull.

(** [get_grades] *)
Definition get_grades (token : json) (eleve : instance) (annee_scolaire : json)
  : M json :=
  eleve_id <- lift (getattr eleve "eleve_id") ;;
  json_resp <-
    get_response provider token
      [Lit (APIURL +:+ "/eleves/"); Fmt eleve_id;
       Lit ("/notes.awp?verbe=get&v=" +:+ APIVERSION)]
      (Some [Lit "data={'anneeScolaire': '"; Fmt annee_scolaire; Lit "'}"]) ;;
  has_data <- lift (contains "data" json_resp) ;;
  if has_data then lift (getitem json_resp "data")
  else
    run logf WARNING "get_grades: [%s]" [LVal json_resp] ;;
    ret JNull.

(** [get_lessons] *)
Definition get_lessons (token : json) (eleve : instance)
  (date_debut date_fin : json) : M json :=
  eleve_id <- lift (getattr eleve "eleve_id") ;;
  json_resp <-
    get_response provider token
      [Lit (APIURL +:+ "/E/"); Fmt eleve_id;
       Lit ("/emploidutemps.awp?verbe=get&v=" +:+ APIVERSION)]
      (Some [Lit "data={'dateDebut': '"; Fmt date_debut; Lit "','dateFin': '";
             Fmt date_fin; Lit "','avecTrous': false}"]) ;;
  has_data <- lift (contains "data" json_resp) ;;
  if has_data then lift (getitem json_resp "data")
  else
    run logf WARNING "get_lessons: [%s]" [LVal json_resp] ;;
    ret JNull.

End Handshake.

(** ** The library functions on byte strings

    An instance of [PyLib] for strings of 8-bit characters: RFC 4648 base64
    with padding, and percent-encoding of every character that is not
    unreserved.  It is what the Python functions compute on ASCII text and
    on base64 in canonical form, the inputs it is run on below; the
    decoder refuses anything else. *)
Module Bytes.

Definition alphabet : string :=
  "ABCDEFGHIJKLMNOPQRSTUVWXYZabcdefghijklmnopqrstuvwxyz0123456789+/".

Definition digit (n : N) : ascii :=
  match String.get (N.to_nat n) alphabet with
  | Some c => c
  | None => "="%char
  end.

Fixpoint encode (l : list N) : string :=
  match l with
  | [] => ""
  | [a] =>
      let n := (a * 65536)%N in
      String (digit (n / 262144)) (String (digit ((n / 4096) mod 64)) "==")
  | [a; b] =>
      let n := (a * 65536 + b * 256)%N in
      String (digit (n / 262144))
        (String (digit ((n / 4096) mod 64)) (String (digit ((n / 64) mod 64)) "="))
  | a :: b :: c :: rest =>
      let n := (a * 65536 + b * 256 + c)%N in
      String (digit (n / 262144))
        (String (digit ((n / 4096) mod 64))
           (String (digit ((n / 64) mod 64)) (String (digit (n mod 64)) (encode rest))))
  end.

Fixpoint value_from (i : N) (alpha : string) (c : ascii) : option N :=
  match alpha with
  | EmptyString => None
  | String a rest => if Ascii.eqb a c then Some i else value_from (i + 1) rest c
  end.

Definition value (c : ascii) : option N := value_from 0 alphabet c.

Definition is_pad (c : ascii) : bool := Ascii.eqb c "="%char.

Definition byte (n : N) : ascii := ascii_of_N (n mod 256).

(** Strict decoding: groups of four digits, padding only in the last one. *)
Fixpoint decode (s : list ascii) : option string :=
  match s with
  | [] => Some ""
  | a :: b :: c :: d :: rest =>
      x ← value a; y ← value b;
      if is_pad c then
        if is_pad d && match rest with [] => true | _ => false end
        then Some (String (byte ((x * 64 + y) / 16)) "")
        else None
      else
        z ← value c;
        if is_pad d then
          match rest with
          | [] =>
              let n := ((x * 64 + y) * 64 + z)%N in
              Some (String (byte (n / 1024)) (String (byte (n / 4)) ""))
          | _ => None
          end
        else
          t ← value d;
          tail ← decode rest;
          let n := (((x * 64 + y) * 64 + z) * 64 + t)%N in
          Some (String (byte (n / 65536))
                  (String (byte (n / 256)) (String (byte n) tail)))
  | _ => None
  end.

Definition codes (s : string) : list N := N_of_ascii <$> list_ascii_of_string s.

Definition hex (n : N) : ascii :=
  match String.get (N.to_nat n) "0123456789ABCDEF" with
  | Some c => c
  | None => "0"%char
  end.

Definition unreserved (c : ascii) : bool :=
  let n := N_of_ascii c in
  ((65 <=? n) && (n <=? 90) || (97 <=? n) && (n <=? 122)
   || (48 <=? n) && (n <=? 57)
   || (n =? 45) || (n =? 46) || (n =? 95) || (n =? 126))%N.

Fixpoint percent (s : string) : string :=
  match s with
  | EmptyString => EmptyString
  | String c rest =>
      if unreserved c then String c (percent rest)
      else
        let n := N_of_ascii c in
        String "%" (String (hex (n / 16)) (String (hex (n mod 16)) (percent rest)))
  end.

#[export] Instance lib : PyLib := {|
  b64decode_utf8 s := decode (list_ascii_of_string s);
  b64encode_utf8 s := encode (codes s);
  quote := percent
|}.

End Bytes.

(** ** Notions the statements use *)

(** The request [get_response token url payload] posts. *)
Definition request_for (token : json) (url : text) (payload : option text)
  : request :=
  Request url (or_default payload) (get_headers token) 120.

(** The world once [get_response] has logged and posted its request. *)
Definition posted (w : world) (token : json) (url : text) (payload : option text)
  : world :=
  with_sent
    (with_log w
       (LogRecord DEBUG (LText [Lit "URL: [%s] - Payload: [%s]"])
          [LText url; LText (or_default payload)]))
    (request_for token url payload).

(** The world once [get_response] has returned [body]. *)
Definition answered (w : world) (token : json) (url : text)
  (payload : option text) (body : json) : world :=
  with_log (posted w token url payload)
    (LogRecord DEBUG (LText [Lit "%s"]) [LVal body]).

(** The requests of the challenge: fetch the question, post an answer. *)
Definition qcm_get_request (token : json) : request :=
  request_for token qcm_get_url None.

Definition qcm_post_request (token : json) (proposition : string) : request :=
  request_for token qcm_post_url (Some (choix proposition)).

(** The first login request. *)
Definition login_request {lib : PyLib} (username password : string) : request :=
  request_for JNull login_url
    (Some [Lit (credentials_of username password +:+ "}")]).

(** The cache file is absent, cannot be opened, or is not JSON. *)
Definition cache_unusable (f : option file) : bool :=
  match f with
  | Some (Stored _) => false
  | _ => true
  end.

Definition warned (w : world) (fmt : string) (args : list logarg) : world :=
  with_log w (LogRecord WARNING (LText [Lit fmt]) args).

(** The declared fields of the flat records: attribute, JSON key, default. *)
Definition EDHomework_fields : list (string * string * json) :=
  [ ("matiere", "matiere", JStr "");
    ("code_matiere", "codeMatiere", JStr "");
    ("a_faire", "aFaire", JStr "");
    ("id_devoir", "idDevoir", JStr "");
    ("documents_a_faire", "documentsAFaire", JStr "");
    ("donne_le", "donneLe", JStr "");
    ("effectue", "effectue", JStr "");
    ("interrogation", "interrogation", JStr "");
    ("rendre_en_ligne", "rendreEnLigne", JStr "");
    ("nb_jour_max_rendu_devoir", "nbJourMaxRenduDevoir", JStr "");
    ("contenu", "contenu", JStr "") ].

Definition EDGrade_fields : list (string * string * json) :=
  [ ("id", "id", JStr "");
    ("devoir", "devoir", JStr "");
    ("code_periode", "codePeriode", JStr "");
    ("code_matiere", "codeMatiere", JStr "");
    ("libelle_matiere", "libelleMatiere", JStr "");
    ("code_sous_matiere", "codeSousMatiere", JStr "");
    ("type_devoir", "typeDevoir", JStr "");
    ("en_lettre", "enLettre", JStr "");
    ("commentaire", "commentaire", JStr "");
    ("unc_sujet", "uncSujet", JStr "");
    ("unc_corrige", "uncCorrige", JStr "");
    ("coef", "coef", JStr "");
    ("note_sur", "noteSur", JStr "");
    ("valeur", "valeur", JStr "");
    ("non_significatif", "nonSignificatif", JStr "");
    ("date", "date", JStr "");
    ("date_saisie", "dateSaisie", JStr "");
    ("valeurisee", "valeurisee", JStr "");
    ("moyenne_classe", "moyenneClasse", JStr "");
    ("min_classe", "minClasse", JStr "");
    ("max_classe", "maxClasse", JStr "");
    ("elements_programme", "elementsProgramme", JStr "") ].

(** The fields of a lesson, [end_date] apart. *)
Definition EDLesson_fields : list (string * string * json) :=
  [ ("id", "id", JStr "");
    ("text", "text", JStr "");
    ("matiere", "matiere", JStr "");
    ("codeMatiere", "codeMatiere", JStr "");
    ("typeCours", "typeCours", JStr "");
    ("start_date", "start_date", JStr "");
    ("color", "color", JStr "");
    ("dispensable", "dispensable", JBool false);
    ("dispense", "dispense", JStr "");
    ("prof", "prof", JStr "");
    ("salle", "salle", JStr "");
    ("classe", "classe", JStr "");
    ("classeId", "classeId", JStr "");
    ("classeCode", "classeCode", JStr "");
    ("groupe", "groupe", JStr "");
    ("groupeCode", "groupeCode", JStr "");
    ("groupeId", "groupeId", JStr "");
    ("icone", "icone", JStr "");
    ("isFlexible", "isFlexible", JBool false);
    ("isModifie", "isModifie", JBool false);
    ("contenuDeSeance", "contenuDeSeance", JBool false);
    ("devoirAFaire", "devoirAFaire", JBool false);
    ("isAnnule", "isAnnule", JBool false) ].

(** Every listed attribute holds the value under its key, or the default. *)
Definition copied (kvs : list (string * json)) (self : instance)
  (fields : list (string * string * json)) : Prop :=
  Forall (fun f => self !! f.1.1 = Some (default f.2 (assoc f.1.2 kvs))) fields.

(** A module entry the student constructor can read. *)
Definition module_ok (module : json) : bool :=
  match module with
  | JObj kvs =>
      match assoc "enable" kvs with
      | Some enable =>
          if truthy enable then
            match assoc "code" kvs with Some _ => true | None => false end
          else true
      | None => false
      end
  | _ => false
  end.

(** The [classe] entry is absent, or an object with [id] and [libelle]. *)
Definition classe_ok (kvs : list (string * json)) : bool :=
  match assoc "classe" kvs with
  | None => true
  | Some (JObj c) =>
      match assoc "id" c, assoc "libelle" c with
      | Some _, Some _ => true
      | _, _ => false
      end
  | Some _ => false
  end.

(** The identifier token in the specification's words: every character that
    is not a letter becomes one underscore, after case folding, and the two
    names are joined by an underscore. *)
Definition underscore_non_letters (s : string) : string :=
  string_of_list_ascii
    ((fun c => if is_letter c then c else "_"%char) <$> list_ascii_of_string s).

Definition fullname_token (first last : string) : string :=
  underscore_non_letters (lower first) +:+ "_" +:+ underscore_non_letters (lower last).

(** ** A provider and a host to run the code on *)
Module Scenario.

Definition EVENT : string := "ecole_directe_event".

Definition data : gmap string string :=
  <["username" := "jean"]> (<["password" := "s3cret"]> ∅).

Definition config_path : string := "/config".

Definition question : string := "Quelle est votre ville ?".

Definition question64 : string := "UXVlbGxlIGVzdCB2b3RyZSB2aWxsZSA/".

Definition body (j : json) : reply := Reply "" (Some j).

(** First login from a new device: the challenge is required. *)
Definition login_250_body : json :=
  JObj [("code", JInt 250); ("token", JStr "tok");
        ("message", JStr "Authentification a deux facteurs requise")].

Definition login_250 : reply := body login_250_body.

(** The challenge: the question and two candidates, 42 and Paris. *)
Definition qcm : json :=
  JObj [("question", JStr question64);
        ("propositions", JArr [JStr "NDI="; JStr "UGFyaXM="])].

Definition qcm_body : json :=
  JObj [("code", JInt 200); ("token", JStr "tok"); ("data", qcm)].

Definition qcm_reply : reply := body qcm_body.

(** The provider takes the answer, or refuses it with no data. *)
Definition accepted_body : json :=
  JObj [("code", JInt 200);
        ("data", JObj [("cn", JStr "Y24="); ("cv", JStr "Y3Y=")])].

Definition accepted : reply := body accepted_body.

Definition rejected_body : json :=
  JObj [("code", JInt 200); ("message", JStr "")].

Definition rejected : reply := body rejected_body.

(** A login that succeeds at once, on a student account. *)
Definition login_200 : reply :=
  body (JObj
    [("code", JInt 200); ("token", JStr "tok");
     ("data", JObj [("accounts", JArr [JObj
        [("id", JInt 1001); ("identifiant", JStr "jean"); ("idLogin", JInt 7);
         ("typeCompte", JStr "E"); ("nomEtablissement", JStr "Lycee");
         ("prenom", JStr "Jean-Paul"); ("nom", JStr "O'Brien");
         ("modules", JArr [JObj [("code", JStr "NOTES"); ("enable", JBool true)];
                           JObj [("code", JStr "VIE"); ("enable", JBool false)]]);
         ("profile", JObj [("classe", JObj [("id", JInt 12);
                                            ("libelle", JStr "3A")])])]])])]).

Definition url_is (r : request) (u : text) : bool :=
  match req_url r, u with
  | [Lit a], [Lit b] => String.eqb a b
  | _, _ => false
  end.

(** A provider that answers by endpoint, whatever came before. *)
Definition by_url (login get post : reply) : list request → request → reply :=
  fun _ r =>
    if url_is r login_url then login
    else if url_is r qcm_get_url then get
    else if url_is r qcm_post_url then post
    else NoReply.

(** A provider that always gives the same reply. *)
Definition always (r : reply) : list request → request → reply := fun _ _ => r.

(** A host with the given files, and nothing sent, fired or logged yet. *)
Definition host (files : gmap string file) : world := World [] files true [] [].

(** The cache holding the question with its one confirmed answer, and the
    disk with that cache file. *)
Definition solved_cache : list (string * json) := [(question, JArr [JStr "42"])].

Definition solved : gmap string file :=
  <[qcm_path config_path := Stored (JObj solved_cache)]> ∅.

(** The cache file with no question yet. *)
Definition blank : gmap string file :=
  <[qcm_path config_path := Stored (JObj [])]> ∅.

Definition eleve : instance :=
  <["eleve_id" := JInt 1001]>
    (<["eleve_firstname" := JStr "Jean-Paul"]>
       (<["eleve_lastname" := JStr "O'Brien"]> ∅)).

(** A provider that asks the same question at each try and refuses every
    answer posted. *)
Definition stubborn : list request → request → reply :=
  by_url login_250 qcm_reply rejected.

(** A provider that takes the answer posted. *)
Definition lenient : list request → request → reply :=
  by_url login_250 qcm_reply accepted.

(** A provider that takes the answer posted, and lets the login through
    once an answer has been posted. *)
Definition honest : list request → request → reply :=
  fun sent_before r =>
    if url_is r login_url then
      if existsb (fun q => url_is q qcm_post_url) sent_before
      then login_200 else login_250
    else if url_is r qcm_get_url then qcm_reply
    else if url_is r qcm_post_url then accepted
    else NoReply.

(** The host once the first login has answered that a challenge is
    required. *)
Definition after_login (files : gmap string file) : world :=
  answered (host files) JNull login_url
    (Some [Lit (credentials_of (lib := Bytes.lib) "jean" "s3cret" +:+ "}")])
    login_250_body.

(** One pass in which the cached answer 42 is posted and refused. *)
Definition refused_pass (w : world) : world :=
  warned
    (warned
       (answered (answered w (JStr "tok") qcm_get_url None qcm_body)
          (JStr "tok") qcm_post_url
          (Some (choix (b64encode_utf8 (PyLib := Bytes.lib) "42"))) rejected_body)
       "post_qcm_connexion: [%s]" [LVal rejected_body])
    qcm_failed [LVal (JStr question); LVal JNull].

(** The host after the login and [n] such passes. *)
Definition stuck (n : nat) : world := Nat.iter n refused_pass (after_login solved).

(** The passes through the loop a host has seen: each one starts by
    fetching the challenge. *)
Definition passes (w : world) : nat :=
  length (List.filter (fun r => url_is r qcm_get_url) (sent w)).

End Scenario.

(** What a data-fetch operation gives once [get_response] has returned
    [body] in world [w1]: the [data] field, or [None] and a warning. *)
Definition fetched (fmt : string) (body : json) (w1 : world)
  (r : outcome json * world) : Prop :=
  ∃ kvs, body = JObj kvs
         ∧ (∀ d, assoc "data" kvs = Some d → r = (Ret d, w1))
         ∧ (assoc "data" kvs = None → r = (Ret JNull, warned w1 fmt [LVal body])).

(** ** Further notions *)

(** The world keeps its disk and its event bus. *)
Definition quiet (w w' : world) : Prop :=
  disk w' = disk w ∧ disk_writable w' = disk_writable w ∧ fired w' = fired w.

(** A module entry counts when its [enable] is true. *)
Definition enabled (module : json) : bool :=
  match getitem module "enable" with
  | Ok enable => truthy enable
  | Err _ => false
  end.

Definition code_of (module : json) : json :=
  match getitem module "code" with
  | Ok code => code
  | Err _ => JNull
  end.

(** A lower-case letter or the underscore. *)
Definition token_char (c : ascii) : bool :=
  let n := N_of_ascii c in
  ((97 <=? n) && (n <=? 122) || (n =? 95))%N.

Fixpoint all_chars (p : ascii → bool) (s : string) : bool :=
  match s with
  | EmptyString => true
  | String c rest => p c && all_chars p rest
  end.

(** A value that is neither a string nor a container. *)
Definition scalar (v : json) : bool :=
  match v with
  | JNull | JBool _ | JInt _ | JFloat _ => true
  | _ => false
  end.

(** The cache a pass leaves. *)
Definition cache_of (s : step) : json :=
  match s with
  | Continue _ qcm_json => qcm_json
  | Break _ qcm_json _ _ => qcm_json
  end.

(** The second login request, with the pair the challenge gave. *)
Definition second_login_request {lib : PyLib} (username password cn cv : string)
  : request :=
  request_for JNull login_url
    (Some [Lit (credentials_of username password +:+ ", " +:+ dq +:+ "fa" +:+ dq
                +:+ ": [{" +:+ dq +:+ "cn" +:+ dq +:+ ": " +:+ dq +:+ cn
                +:+ dq +:+ ", " +:+ dq +:+ "cv" +:+ dq +:+ ": "
                +:+ dq +:+ cv +:+ dq +:+ "}]}")]).

(** ** Two accounts *)
Module Accounts.

(** The body of a login on a student account. *)
Definition student : json :=
  JObj
    [("code", JInt 200); ("token", JStr "tok");
     ("data", JObj [("accounts", JArr [JObj
        [("id", JInt 1001); ("identifiant", JStr "jean"); ("idLogin", JInt 7);
         ("typeCompte", JStr "E"); ("nomEtablissement", JStr "Lycee");
         ("prenom", JStr "Jean-Paul"); ("nom", JStr "O'Brien");
         ("modules", JArr [JObj [("code", JStr "NOTES"); ("enable", JBool true)];
                           JObj [("code", JStr "VIE"); ("enable", JBool false)]]);
         ("profile", JObj [("classe", JObj [("id", JInt 12);
                                            ("libelle", JStr "3A")])])]])])].

Definition student_session : EDSession :=
  Session (JStr "tok") (JInt 1001) (JStr "jean") (JInt 7) (JStr "E")
    [JStr "NOTES"]
    [<["classe_id" := JInt 12]>
       (<["classe_name" := JStr "3A"]>
          (<["eleve_id" := JInt 1001]>
             (<["eleve_lastname" := JStr "O'Brien"]>
                (<["eleve_firstname" := JStr "Jean-Paul"]>
                   (<["modules" := JArr [JStr "NOTES"]]>
                      (<["establishment" := JStr "Lycee"]> ∅))))))].

(** The body of a login on a parent account with two children, the second
    one without a class. *)
Definition parent : json :=
  JObj
    [("code", JInt 200); ("token", JStr "tok");
     ("data", JObj [("accounts", JArr [JObj
        [("id", JInt 500); ("identifiant", JStr "martin"); ("idLogin", JInt 9);
         ("typeCompte", JStr "1"); ("nomEtablissement", JStr "College");
         ("modules", JArr []);
         ("profile", JObj [("eleves", JArr
            [JObj [("id", JInt 1); ("prenom", JStr "Lea"); ("nom", JStr "Martin");
                   ("classe", JObj [("id", JInt 12); ("libelle", JStr "3A")]);
                   ("modules", JArr [JObj [("code", JStr "NOTES");
                                           ("enable", JBool true)]])];
             JObj [("id", JInt 2); ("prenom", JStr "Tom"); ("nom", JStr "Martin");
                   ("modules", JArr [])]])])]])])].

Definition parent_session : EDSession :=
  Session (JStr "tok") (JInt 500) (JStr "martin") (JInt 9) (JStr "1") []
    [<["classe_id" := JInt 12]>
       (<["classe_name" := JStr "3A"]>
          (<["eleve_id" := JInt 1]>
             (<["eleve_lastname" := JStr "Martin"]>
                (<["eleve_firstname" := JStr "Lea"]>
                   (<["establishment" := JStr "College"]>
                      (<["modules" := JArr [JStr "NOTES"]]> ∅))))));
     <["eleve_id" := JInt 2]>
       (<["eleve_lastname" := JStr "Martin"]>
          (<["eleve_firstname" := JStr "Tom"]>
             (<["establishment" := JStr "College"]>
                (<["modules" := JArr []]> ∅))))].

End Accounts.

(** ** The requests of the data-fetch operations *)

Definition homeworks_by_date_url (eleve_id date : json) : text :=
  [Lit (APIURL +:+ "/Eleves/"); Fmt eleve_id; Lit "/cahierdetexte/"; Fmt date;
   Lit (".awp?verbe=get&v=" +:+ APIVERSION)].

Definition homeworks_url (eleve_id : json) : text :=
  [Lit (APIURL +:+ "/Eleves/"); Fmt eleve_id;
   Lit ("/cahierdetexte.awp?verbe=get&v=" +:+ APIVERSION)].

Definition grades_url (eleve_id : json) : text :=
  [Lit (APIURL +:+ "/eleves/"); Fmt eleve_id;
   Lit ("/notes.awp?verbe=get&v=" +:+ APIVERSION)].

Definition grades_payload (annee_scolaire : json) : text :=
  [Lit "data={'anneeScolaire': '"; Fmt annee_scolaire; Lit "'}"].

Definition lessons_url (eleve_id : json) : text :=
  [Lit (APIURL +:+ "/E/"); Fmt eleve_id;
   Lit ("/emploidutemps.awp?verbe=get&v=" +:+ APIVERSION)].

Definition lessons_payload (date_debut date_fin : json) : text :=
  [Lit "data={'dateDebut': '"; Fmt date_debut; Lit "','dateFin': '";
   Fmt date_fin; Lit "','avecTrous': false}"].

(** ** Further cases for the provider and the cache *)
Module Cases.

(** The cache holding the question with its two candidates, none
    confirmed, and the disk with that cache file. *)
Definition ambiguous_cache : list (string * json) :=
  [(Scenario.question, JArr [JStr "42"; JStr "Paris"])].

Definition ambiguous : gmap string file :=
  <[qcm_path Scenario.config_path := Stored (JObj ambiguous_cache)]> ∅.

(** The cache holding another question only. *)
Definition other_cache : list (string * json) :=
  [("Quel est votre mois de naissance ?", JArr [JStr "Mai"])].

Definition other : gmap string file :=
  <[qcm_path Scenario.config_path := Stored (JObj other_cache)]> ∅.

(** A provider whose challenge endpoint answers with no data. *)
Definition silent : list request → request → reply :=
  Scenario.by_url Scenario.login_250
    (Scenario.body (JObj [("code", JInt 200); ("message", JStr "")]))
    Scenario.rejected.

(** A provider that lets the login through at once. *)
Definition open_door : list request → request → reply :=
  Scenario.always (Scenario.body Accounts.student).

End Cases.

(** * Properties *)

(** ** The library instance *)

Example b64encode_42 : b64encode_utf8 (PyLib := Bytes.lib) "42" = "NDI=".
Proof. reflexivity. Qed.

Example b64decode_question :
  b64decode_utf8 (PyLib := Bytes.lib) "UXVlbGxlIGVzdCB2b3RyZSB2aWxsZSA/" = Some "Quelle est votre ville ?".
Proof. reflexivity. Qed.

Example quote_at : quote (PyLib := Bytes.lib) "a b@c.fr" = "a%20b%40c.fr".
Proof. reflexivity. Qed.

(** ** Transport *)

Lemma eq_int_200_not_250 (code : json) :
  eq_int code 200 = true → eq_int code 250 = false.
Proof.
  destruct code as [ | b | z | q | s | l | kvs ]; simpl; try done.
  - by destruct b.
  - intros ->%Z.eqb_eq. done.
  - intros H%Qeq_bool_iff. apply not_true_is_false.
    intros H'%Qeq_bool_iff. rewrite H in H'. discriminate H'.
Qed.

(** What [get_response] does with a reply whose body is a JSON object. *)
Lemma get_response_object provider token url payload w content kvs :
  provider (sent w) (request_for token url payload) = Reply content (Some (JObj kvs)) →
  get_response provider token url payload w =
    match assoc "code" kvs with
    | None =>
        (Raise (RequestError
                  ([Lit "Error with URL:["] ++ url
                   ++ [Lit "]: json:["; Fmt (JObj kvs); Lit "]"])),
         posted w token url payload)
    | Some code =>
        if eq_int code 250 && is_None token then
          (Ret (JObj kvs), answered w token url payload (JObj kvs))
        else if eq_int code 200 then
          (Ret (JObj kvs), answered w token url payload (JObj kvs))
        else
          match assoc "message" kvs with
          | Some message =>
              (Raise (RequestError
                        ([Lit "Error with URL:["] ++ url
                         ++ [Lit "] - Code "; Fmt code; Lit ": "; Fmt message])),
               posted w token url payload)
          | None => (Raise (KeyError (JStr "message")), posted w token url payload)
          end
    end.
Proof.
  intros Hreply.
  unfold get_response, bind, logf, log, requests_post.
  unfold answered, posted, request_for in *. simpl.
  rewrite Hreply. simpl.
  destruct (assoc "code" kvs) as [code|]; simpl; [|done].
  destruct (eq_int code 250 && is_None token); simpl; [done|].
  destruct (eq_int code 200); simpl; [done|].
  by destruct (assoc "message" kvs).
Qed.




(** ** Domain mapper *)

Lemma copy_or_object kvs key attr d (self : instance) :
  copy_or (JObj kvs) key attr d self
  = Ok (<[attr := default d (assoc key kvs)]> self).
Proof. unfold copy_or, setattr. simpl. by destruct (assoc key kvs). Qed.

Lemma rbind_Ok {A B} (r : res A) (k : A → res B) a :
  r = Ok a → rbind r k = k a.
Proof. by intros ->. Qed.

(** Advance a constructor by one block. *)
Ltac copy_field :=
  etrans; [eapply rbind_Ok; apply copy_or_object | cbv beta].

Ltac read_field := vm_compute; reflexivity.

Lemma EDHomework_object kvs pour_le :
  ∃ self, EDHomework (JObj kvs) pour_le = Ok self
          ∧ self !! "pour_le" = Some pour_le
          ∧ copied kvs self EDHomework_fields.
Proof.
  eexists. split; [|split].
  - unfold EDHomework. do 10 copy_field. apply copy_or_object.
  - read_field.
  - unfold copied, EDHomework_fields. repeat constructor; read_field.
Qed.

Lemma EDGrade_object kvs :
  ∃ self, EDGrade (JObj kvs) = Ok self ∧ copied kvs self EDGrade_fields.
Proof.
  eexists. split.
  - unfold EDGrade. do 21 copy_field. apply copy_or_object.
  - unfold copied, EDGrade_fields. repeat constructor; read_field.
Qed.

Lemma EDLesson_object kvs :
  ∃ self, EDLesson (JObj kvs) = Ok self
          ∧ copied kvs self EDLesson_fields
          ∧ ∀ v, assoc "end_date" kvs = Some v → self !! "end_date" = Some v.
Proof.
  destruct (assoc "end_date" kvs) as [end_date|] eqn:Hend;
    (eexists; split; [|split]).
  - unfold EDLesson. do 6 copy_field.
    etrans; [eapply rbind_Ok; simpl; rewrite Hend; reflexivity | cbv beta iota].
    etrans; [eapply rbind_Ok; simpl; rewrite Hend; reflexivity | cbv beta].
    do 16 copy_field. apply copy_or_object.
  - unfold copied, EDLesson_fields. repeat constructor; read_field.
  - intros v [= <-]. read_field.
  - unfold EDLesson. do 6 copy_field.
    etrans; [eapply rbind_Ok; simpl; rewrite Hend; reflexivity | cbv beta iota].
    etrans; [eapply rbind_Ok; reflexivity | cbv beta].
    do 16 copy_field. apply copy_or_object.
  - unfold copied, EDLesson_fields. repeat constructor; read_field.
  - intros v [=].
Qed.

Lemma enabled_codes_ok modules :
  forallb module_ok modules = true → ∃ codes, enabled_codes modules = Ok codes.
Proof.
  induction modules as [|module rest IH]; simpl; [eauto|].
  intros [Hm Hrest]%andb_prop. destruct (IH Hrest) as [codes Hcodes].
  destruct module as [ | | | | | |kvs]; try done. simpl in *.
  destruct (assoc "enable" kvs) as [enable|]; [|done]. simpl.
  destruct (truthy enable); [|eauto].
  destruct (assoc "code" kvs) as [code|]; [|done]. simpl.
  rewrite Hcodes. simpl. eauto.
Qed.

Lemma EDEleve_record kvs establishment a1 a2 a3 a4 a5 a6 id nom prenom modules :
  classe_ok kvs = true →
  assoc "id" kvs = Some id →
  assoc "nom" kvs = Some nom →
  assoc "prenom" kvs = Some prenom →
  assoc "modules" kvs = Some (JArr modules) →
  forallb module_ok modules = true →
  ∃ self codes,
    EDEleve (JObj kvs) establishment a1 a2 a3 a4 a5 a6 = Ok self
    ∧ self !! "eleve_id" = Some id
    ∧ self !! "eleve_lastname" = Some nom
    ∧ self !! "eleve_firstname" = Some prenom
    ∧ self !! "establishment" = Some establishment
    ∧ enabled_codes modules = Ok codes
    ∧ self !! "modules" = Some (JArr codes)
    ∧ ∀ c classe_id libelle,
        assoc "classe" kvs = Some (JObj c) →
        assoc "id" c = Some classe_id →
        assoc "libelle" c = Some libelle →
        self !! "classe_id" = Some classe_id
        ∧ self !! "classe_name" = Some libelle.
Proof.
  intros Hclasse Hid Hnom Hprenom Hmodules Hok.
  destruct (enabled_codes_ok _ Hok) as [codes Hcodes].
  unfold EDEleve, classe_ok in *. cbn [is_None contains getitem].
  destruct (assoc "classe" kvs) as [classe|]; cbn [rbind].
  - destruct classe as [ | | | | | |c]; try done. cbn [getitem].
    destruct (assoc "id" c) as [cid|] eqn:Hclasse_id; [|done].
    destruct (assoc "libelle" c) as [lib|] eqn:Hclasse_name; [|done]. cbn [rbind].
    rewrite Hid, Hnom, Hprenom, Hmodules. cbn [rbind iter]. rewrite Hcodes. cbn [rbind].
    eexists _, codes. split; [reflexivity|].
    do 4 (split; [read_field|]). split; [done|]. split; [read_field|].
    intros c' cid' lib' [= <-] Hcid Hlib.
    rewrite Hcid in Hclasse_id; rewrite Hlib in Hclasse_name.
    injection Hclasse_id as <-; injection Hclasse_name as <-.
    split; read_field.
  - rewrite Hid, Hnom, Hprenom, Hmodules. cbn [rbind iter]. rewrite Hcodes. cbn [rbind].
    eexists _, codes. split; [reflexivity|].
    do 4 (split; [read_field|]). split; [done|]. split; [read_field|].
    intros c' cid' lib' [=].
Qed.

(** C5 (amended).  On every JSON object the Homework, Grade and Lesson
    constructors return; every declared field of a Homework and of a Grade,
    and every declared field of a Lesson other than [end_date], holds the
    value under its key or else its default, and [end_date] holds the value
    under its key when the key is there.  The Student constructor returns on
    a record that has [id], [nom], [prenom] and a list [modules] of objects
    with [enable] (and [code] when enabled), with [classe] absent or an
    object with [id] and [libelle]; these fields are then copied. *)
Theorem domain_mapper_objects kvs pour_le establishment :
  (∃ self, EDHomework (JObj kvs) pour_le = Ok self
           ∧ self !! "pour_le" = Some pour_le
           ∧ copied kvs self EDHomework_fields)
  ∧ (∃ self, EDGrade (JObj kvs) = Ok self ∧ copied kvs self EDGrade_fields)
  ∧ (∃ self, EDLesson (JObj kvs) = Ok self
             ∧ copied kvs self EDLesson_fields
             ∧ ∀ v, assoc "end_date" kvs = Some v → self !! "end_date" = Some v)
  ∧ (∀ id nom prenom modules,
       classe_ok kvs = true →
       assoc "id" kvs = Some id →
       assoc "nom" kvs = Some nom →
       assoc "prenom" kvs = Some prenom →
       assoc "modules" kvs = Some (JArr modules) →
       forallb module_ok modules = true →
       ∃ self codes,
         EDEleve (JObj kvs) establishment JNull JNull JNull JNull JNull JNull
           = Ok self
         ∧ self !! "eleve_id" = Some id
         ∧ self !! "eleve_lastname" = Some nom
         ∧ self !! "eleve_firstname" = Some prenom
         ∧ self !! "establishment" = Some establishment
         ∧ enabled_codes modules = Ok codes
         ∧ self !! "modules" = Some (JArr codes)
         ∧ ∀ c classe_id libelle,
             assoc "classe" kvs = Some (JObj c) →
             assoc "id" c = Some classe_id →
             assoc "libelle" c = Some libelle →
             self !! "classe_id" = Some classe_id
             ∧ self !! "classe_name" = Some libelle).
Proof.
  split; [apply EDHomework_object|].
  split; [apply EDGrade_object|].
  split; [apply EDLesson_object|].
  intros id nom prenom modules. apply EDEleve_record.
Qed.

Lemma domain_mapper_objects_witness :
  ∃ self codes,
    EDEleve
      (JObj [("id", JInt 1002); ("prenom", JStr "Lea"); ("nom", JStr "Martin");
             ("classe", JObj [("id", JInt 12); ("libelle", JStr "3A")]);
             ("modules", JArr [JObj [("code", JStr "NOTES"); ("enable", JBool true)];
                               JObj [("code", JStr "VIE"); ("enable", JBool false)]])])
      (JStr "Lycee") JNull JNull JNull JNull JNull JNull = Ok self
    ∧ self !! "eleve_id" = Some (JInt 1002)
    ∧ self !! "eleve_lastname" = Some (JStr "Martin")
    ∧ self !! "eleve_firstname" = Some (JStr "Lea")
    ∧ self !! "establishment" = Some (JStr "Lycee")
    ∧ enabled_codes
        [JObj [("code", JStr "NOTES"); ("enable", JBool true)];
         JObj [("code", JStr "VIE"); ("enable", JBool false)]] = Ok codes
    ∧ self !! "modules" = Some (JArr codes)
    ∧ ∀ c classe_id libelle,
        Some (JObj [("id", JInt 12); ("libelle", JStr "3A")]) = Some (JObj c) →
        assoc "id" c = Some classe_id →
        assoc "libelle" c = Some libelle →
        self !! "classe_id" = Some classe_id
        ∧ self !! "classe_name" = Some libelle.
Proof.
  exact (proj2 (proj2 (proj2
           (domain_mapper_objects
              [("id", JInt 1002); ("prenom", JStr "Lea"); ("nom", JStr "Martin");
               ("classe", JObj [("id", JInt 12); ("libelle", JStr "3A")]);
               ("modules",
                JArr [JObj [("code", JStr "NOTES"); ("enable", JBool true)];
                      JObj [("code", JStr "VIE"); ("enable", JBool false)]])]
              JNull (JStr "Lycee"))))
           (JInt 1002) (JStr "Martin") (JStr "Lea") _
           eq_refl eq_refl eq_refl eq_refl eq_refl eq_refl).
Defined.

(** C5, as first stated, fails on the empty object: the Student constructor
    raises [KeyError], and the Lesson it builds has no [end_date]. *)
Lemma domain_mapper_empty_object :
  EDEleve (JObj []) JNull JNull JNull JNull JNull JNull JNull
    = Err (KeyError (JStr "id"))
  ∧ ∃ self, EDLesson (JObj []) = Ok self
            ∧ self !! "end_date" = None
            ∧ self !! "tend_date" = Some (JStr "").
Proof.
  split; [reflexivity|].
  eexists. split; [reflexivity|]. split; reflexivity.
Qed.

Lemma re_sub_underscore s :
  re_sub_non_letter "_" s = underscore_non_letters s.
Proof.
  unfold underscore_non_letters.
  induction s as [|c s IH]; simpl; [done|].
  rewrite IH. by destruct (is_letter c).
Qed.

Lemma string_length_app s t :
  String.length (s +:+ t) = (String.length s + String.length t)%nat.
Proof.
  induction s as [|c s IH]; [done|].
  change (String c s +:+ t) with (String c (s +:+ t)). simpl. by rewrite IH.
Qed.

Lemma underscore_non_letters_length s :
  String.length (underscore_non_letters s) = String.length s.
Proof.
  unfold underscore_non_letters.
  induction s as [|c s IH]; simpl; [done|]. f_equal. exact IH.
Qed.

Lemma lower_length s : String.length (lower s) = String.length s.
Proof. induction s as [|c s IH]; simpl; [done|]. by rewrite IH. Qed.

(** C9.  On the student Jean-Paul O'Brien [get_fullname_lower] gives
    [jean_paul_o_brien]; on every student whose names are strings it gives
    the two names in lower case, each character other than a letter
    replaced by one underscore, joined by an underscore. *)
Theorem get_fullname_lower_token :
  get_fullname_lower Scenario.eleve = Ok "jean_paul_o_brien"
  ∧ ∀ (self : instance) first last,
      self !! "eleve_firstname" = Some (JStr first) →
      self !! "eleve_lastname" = Some (JStr last) →
      get_fullname_lower self = Ok (fullname_token first last)
      ∧ String.length (fullname_token first last)
        = (String.length first + 1 + String.length last)%nat.
Proof.
  split; [reflexivity|].
  intros self first last Hfirst Hlast.
  unfold get_fullname_lower, getattr, fullname_token.
  rewrite Hfirst, Hlast. simpl. rewrite !re_sub_underscore. split; [done|].
  rewrite !string_length_app, !underscore_non_letters_length, !lower_length.
  simpl. lia.
Qed.

Lemma get_fullname_lower_token_witness :
  get_fullname_lower Scenario.eleve = Ok (fullname_token "Jean-Paul" "O'Brien")
  ∧ String.length (fullname_token "Jean-Paul" "O'Brien") = (9 + 1 + 7)%nat.
Proof.
  exact (proj2 get_fullname_lower_token Scenario.eleve "Jean-Paul" "O'Brien"
           eq_refl eq_refl).
Defined.

(** ** Data-fetch operations *)

(** Whatever [get_response] returns is a JSON object. *)
Lemma get_response_returns provider token url payload w body w1 :
  get_response provider token url payload w = (Ret body, w1) →
  ∃ kvs, body = JObj kvs.
Proof.
  unfold get_response, bind, logf, log, requests_post. simpl.
  destruct (provider _ _) as [|content [j|]]; simpl; try done.
  destruct j as [ | | | | s | l | kvs ]; simpl; try done.
  - destruct (is_substring "code" s); simpl; done.
  - destruct (existsb _ l); simpl; done.
  - destruct (assoc "code" kvs) as [code|]; simpl; [|done].
    destruct (eq_int code 250 && is_None token); simpl.
    { intros [= <- _]. eauto. }
    destruct (eq_int code 200); simpl.
    { intros [= <- _]. eauto. }
    by destruct (assoc "message" kvs).
Qed.

Ltac fetch_with Hattr Hresp :=
  unfold bind, lift; rewrite Hattr; unfold ret at 1; cbv beta iota;
  rewrite Hresp;
  destruct (get_response_returns _ _ _ _ _ _ _ Hresp) as [kvs ->];
  exists kvs; split; [done|]; simpl;
  split; [by intros d -> | by intros ->].

(** C8.  For each of the four data-fetch operations, once the transport
    call has returned a body: when the body has a [data] field the operation
    returns the value of that field, and when it has none the operation logs
    a warning and returns [None]; it does not raise. *)
Theorem fetch_data_or_none provider token (eleve : instance) eleve_id w :
  getattr eleve "eleve_id" = Ok eleve_id →
  (∀ date body w1,
     get_response provider token
       [Lit (APIURL +:+ "/Eleves/"); Fmt eleve_id; Lit "/cahierdetexte/"; Fmt date;
        Lit (".awp?verbe=get&v=" +:+ APIVERSION)] None w = (Ret body, w1) →
     fetched "get_homeworks_by_date: [%s]" body w1
       (get_homeworks_by_date provider token eleve date w))
  ∧ (∀ body w1,
       get_response provider token
         [Lit (APIURL +:+ "/Eleves/"); Fmt eleve_id;
          Lit ("/cahierdetexte.awp?verbe=get&v=" +:+ APIVERSION)] None w
         = (Ret body, w1) →
       fetched "get_homeworks: [%s]" body w1 (get_homeworks provider token eleve w))
  ∧ (∀ annee_scolaire body w1,
       get_response provider token
         [Lit (APIURL +:+ "/eleves/"); Fmt eleve_id;
          Lit ("/notes.awp?verbe=get&v=" +:+ APIVERSION)]
         (Some [Lit "data={'anneeScolaire': '"; Fmt annee_scolaire; Lit "'}"]) w
         = (Ret body, w1) →
       fetched "get_grades: [%s]" body w1
         (get_grades provider token eleve annee_scolaire w))
  ∧ (∀ date_debut date_fin body w1,
       get_response provider token
         [Lit (APIURL +:+ "/E/"); Fmt eleve_id;
          Lit ("/emploidutemps.awp?verbe=get&v=" +:+ APIVERSION)]
         (Some [Lit "data={'dateDebut': '"; Fmt date_debut; Lit "','dateFin': '";
                Fmt date_fin; Lit "','avecTrous': false}"]) w
         = (Ret body, w1) →
       fetched "get_lessons: [%s]" body w1
         (get_lessons provider token eleve date_debut date_fin w)).
Proof.
  intros Hattr. repeat split.
  - intros date body w1 Hresp. unfold get_homeworks_by_date. fetch_with Hattr Hresp.
  - intros body w1 Hresp. unfold get_homeworks. fetch_with Hattr Hresp.
  - intros annee body w1 Hresp. unfold get_grades. fetch_with Hattr Hresp.
  - intros debut fin body w1 Hresp. unfold get_lessons. fetch_with Hattr Hresp.
Qed.

Lemma fetch_data_or_none_witness :
  fetched "get_homeworks_by_date: [%s]"
    (JObj [("code", JInt 200); ("message", JStr "")])
    (answered (Scenario.host ∅) (JStr "tok")
       [Lit (APIURL +:+ "/Eleves/"); Fmt (JInt 1001); Lit "/cahierdetexte/";
        Fmt (JStr "2024-05-17"); Lit (".awp?verbe=get&v=" +:+ APIVERSION)] None
       (JObj [("code", JInt 200); ("message", JStr "")]))
    (get_homeworks_by_date
       (Scenario.always (Scenario.body (JObj [("code", JInt 200); ("message", JStr "")])))
       (JStr "tok") Scenario.eleve (JStr "2024-05-17") (Scenario.host ∅)).
Proof.
  exact (proj1 (fetch_data_or_none
                  (Scenario.always
                     (Scenario.body (JObj [("code", JInt 200); ("message", JStr "")])))
                  (JStr "tok") Scenario.eleve (JInt 1001) (Scenario.host ∅) eq_refl)
           (JStr "2024-05-17") _ _ eq_refl).
Defined.

Example get_homeworks_by_date_no_data :
  get_homeworks_by_date
    (Scenario.always (Scenario.body (JObj [("code", JInt 200); ("message", JStr "")])))
    (JStr "tok") Scenario.eleve (JStr "2024-05-17") (Scenario.host ∅)
  = (Ret JNull,
     warned
       (answered (Scenario.host ∅) (JStr "tok")
          [Lit (APIURL +:+ "/Eleves/"); Fmt (JInt 1001); Lit "/cahierdetexte/";
           Fmt (JStr "2024-05-17"); Lit (".awp?verbe=get&v=" +:+ APIVERSION)] None
          (JObj [("code", JInt 200); ("message", JStr "")]))
       "get_homeworks_by_date: [%s]"
       [LVal (JObj [("code", JInt 200); ("message", JStr "")])]).
Proof. reflexivity. Qed.

(** ** Authentication handshake *)

Lemma bind_Ret {A B} (m : M A) (k : A → M B) w a w' :
  m w = (Ret a, w') → bind m k w = k a w'.
Proof. unfold bind. by intros ->. Qed.

Lemma bind_Raise {A B} (m : M A) (k : A → M B) w e w' :
  m w = (Raise e, w') → bind m k w = (Raise e, w').
Proof. unfold bind. by intros ->. Qed.

Lemma bind_Diverge {A B} (m : M A) (k : A → M B) w w' :
  m w = (Diverge, w') → bind m k w = (Diverge, w').
Proof. unfold bind. by intros ->. Qed.

Lemma bind_lift_Ok {A B} (r : res A) (k : A → M B) w a :
  r = Ok a → bind (lift r) k w = k a w.
Proof. by intros ->. Qed.

Lemma bind_lift_Err {A B} (r : res A) (k : A → M B) w e :
  r = Err e → bind (lift r) k w = (Raise e, w).
Proof. by intros ->. Qed.

(** Advance the computation on the left by one [bind] whose first part is
    known to return. *)
Ltac step_by tac :=
  etrans; [eapply bind_Ret; tac | cbv beta].

Ltac step_pure tac :=
  etrans; [eapply bind_lift_Ok; tac | cbv beta].

Lemma assoc_set_eq {A} k (v : A) kvs : assoc k (assoc_set k v kvs) = Some v.
Proof.
  induction kvs as [|[k' v'] kvs IH]; simpl.
  - by rewrite String.eqb_refl.
  - destruct (String.eqb k k') eqn:Hk; simpl; rewrite Hk; [done|apply IH].
Qed.

Lemma assoc_set_ne {A} k k' (v : A) kvs :
  k ≠ k' → assoc k' (assoc_set k v kvs) = assoc k' kvs.
Proof.
  intros Hne. induction kvs as [|[k0 v0] kvs IH]; simpl.
  - destruct (String.eqb k' k) eqn:Hk; [|done].
    apply String.eqb_eq in Hk. congruence.
  - destruct (String.eqb k k0) eqn:Hk; simpl.
    + apply String.eqb_eq in Hk as <-.
      destruct (String.eqb k' k) eqn:Hk'; [|done].
      apply String.eqb_eq in Hk'. congruence.
    + by rewrite IH.
Qed.

Section HandshakeProperties.

Context {lib : PyLib}.
Variable EVENT_TYPE : string.
Variable provider : list request → request → reply.
Variable data : gmap string string.
Variable config_path : string.

Lemma get_response_200 token url payload w content kvs code :
  provider (sent w) (request_for token url payload)
    = Reply content (Some (JObj kvs)) →
  assoc "code" kvs = Some code →
  eq_int code 200 = true →
  get_response provider token url payload w
  = (Ret (JObj kvs), answered w token url payload (JObj kvs)).
Proof.
  intros Hreply Hcode H200.
  rewrite (get_response_object _ _ _ _ _ _ _ Hreply), Hcode, H200.
  by rewrite (eq_int_200_not_250 _ H200).
Qed.

Lemma get_qcm_connexion_data token w content kvs code qcm :
  provider (sent w) (qcm_get_request token) = Reply content (Some (JObj kvs)) →
  assoc "code" kvs = Some code →
  eq_int code 200 = true →
  assoc "data" kvs = Some qcm →
  get_qcm_connexion provider token w
  = (Ret qcm, answered w token qcm_get_url None (JObj kvs)).
Proof.
  intros Hreply Hcode H200 Hdata. unfold get_qcm_connexion.
  step_by ltac:(eapply get_response_200; eassumption).
  unfold bind, lift. simpl. by rewrite Hdata.
Qed.

Lemma post_qcm_connexion_data token proposition w content kvs code d :
  provider (sent w) (qcm_post_request token proposition)
    = Reply content (Some (JObj kvs)) →
  assoc "code" kvs = Some code →
  eq_int code 200 = true →
  assoc "data" kvs = Some d →
  post_qcm_connexion provider token proposition w
  = (Ret d, answered w token qcm_post_url (Some (choix proposition)) (JObj kvs)).
Proof.
  intros Hreply Hcode H200 Hdata. unfold post_qcm_connexion.
  step_by ltac:(eapply get_response_200; eassumption).
  unfold bind, lift. simpl. by rewrite Hdata.
Qed.

Lemma post_qcm_connexion_no_data token proposition w content kvs code :
  provider (sent w) (qcm_post_request token proposition)
    = Reply content (Some (JObj kvs)) →
  assoc "code" kvs = Some code →
  eq_int code 200 = true →
  assoc "data" kvs = None →
  post_qcm_connexion provider token proposition w
  = (Ret JNull,
     warned (answered w token qcm_post_url (Some (choix proposition)) (JObj kvs))
       "post_qcm_connexion: [%s]" [LVal (JObj kvs)]).
Proof.
  intros Hreply Hcode H200 Hdata. unfold post_qcm_connexion.
  step_by ltac:(eapply get_response_200; eassumption).
  unfold bind, lift. simpl. by rewrite Hdata.
Qed.

Lemma decode_all_strings ps rs :
  Forall2 (fun p r => b64decode_utf8 p = Some r) ps rs →
  decode_all (JStr <$> ps) = Ok (JStr <$> rs).
Proof.
  induction 1 as [|p r ps rs Hp _ IH]; simpl; [done|].
  rewrite Hp. change (list_fmap _ _ JStr ps) with (JStr <$> ps).
  by rewrite IH.
Qed.

(** The question and the token of one pass, as the hypotheses below give
    them. *)
Ltac open_pass Htoken Hreply Hcode H200 Hdata Hquestion Hdecode :=
  unfold iteration;
  step_pure ltac:(exact Htoken);
  step_by ltac:(eapply get_qcm_connexion_data;
                [exact Hreply | exact Hcode | exact H200 | exact Hdata]);
  step_pure ltac:(exact Hquestion);
  step_pure ltac:(reflexivity);
  step_pure ltac:(rewrite Hdecode; reflexivity).

(** A pass on a question the cache answers, when the provider takes the
    answer: the loop is left with the pair it returned. *)
Lemma iteration_accepted w login token try_login cache c1 r1 code1 qcm q64
  question answer c2 r2 code2 cn_et_cv cn cv :
  getitem login "token" = Ok token →
  provider (sent w) (qcm_get_request token) = Reply c1 (Some (JObj r1)) →
  assoc "code" r1 = Some code1 →
  eq_int code1 200 = true →
  assoc "data" r1 = Some qcm →
  getitem qcm "question" = Ok (JStr q64) →
  b64decode_utf8 q64 = Some question →
  assoc question cache = Some (JArr [JStr answer]) →
  provider (sent w ++ [qcm_get_request token])
    (qcm_post_request token (b64encode_utf8 answer))
    = Reply c2 (Some (JObj r2)) →
  assoc "code" r2 = Some code2 →
  eq_int code2 200 = true →
  assoc "data" r2 = Some cn_et_cv →
  truthy cn_et_cv = true →
  getitem cn_et_cv "cn" = Ok cn →
  getitem cn_et_cv "cv" = Ok cv →
  iteration EVENT_TYPE provider data config_path login try_login (JObj cache) w
  = (Ret (Break try_login (JObj cache) cn cv),
     answered (answered w token qcm_get_url None (JObj r1)) token qcm_post_url
       (Some (choix (b64encode_utf8 answer))) (JObj r2)).
Proof.
  intros Htoken Hreply Hcode H200 Hdata Hquestion Hdecode Hcache
    Hreply2 Hcode2 H200' Hdata2 Htruthy Hcn Hcv.
  open_pass Htoken Hreply Hcode H200 Hdata Hquestion Hdecode.
  step_pure ltac:(simpl; rewrite Hcache; reflexivity). cbv iota.
  step_pure ltac:(simpl; rewrite Hcache; reflexivity).
  step_pure ltac:(reflexivity). cbv iota.
  change (Z.of_nat (length [JStr answer]) >? 1) with false. cbv iota.
  step_pure ltac:(simpl; rewrite Hcache; reflexivity).
  step_pure ltac:(reflexivity).
  step_pure ltac:(reflexivity).
  step_pure ltac:(exact Htoken).
  step_by ltac:(eapply post_qcm_connexion_data;
                [exact Hreply2 | exact Hcode2 | exact H200' | exact Hdata2]).
  rewrite Htruthy. cbv iota. simpl negb. cbv iota.
  step_pure ltac:(exact Hcn).
  step_pure ltac:(exact Hcv).
  reflexivity.
Qed.

(** A pass on a question the cache answers, when the provider refuses the
    answer: the loop goes on, and the counter is the one it had. *)
Lemma iteration_rejected w login token try_login cache c1 r1 code1 qcm q64
  question answer cn_et_cv w2 :
  getitem login "token" = Ok token →
  provider (sent w) (qcm_get_request token) = Reply c1 (Some (JObj r1)) →
  assoc "code" r1 = Some code1 →
  eq_int code1 200 = true →
  assoc "data" r1 = Some qcm →
  getitem qcm "question" = Ok (JStr q64) →
  b64decode_utf8 q64 = Some question →
  assoc question cache = Some (JArr [JStr answer]) →
  post_qcm_connexion provider token (b64encode_utf8 answer)
    (answered w token qcm_get_url None (JObj r1)) = (Ret cn_et_cv, w2) →
  truthy cn_et_cv = false →
  iteration EVENT_TYPE provider data config_path login try_login (JObj cache) w
  = (Ret (Continue try_login (JObj cache)),
     warned w2 qcm_failed [LVal (JStr question); LVal cn_et_cv]).
Proof.
  intros Htoken Hreply Hcode H200 Hdata Hquestion Hdecode Hcache Hpost Hfalsy.
  open_pass Htoken Hreply Hcode H200 Hdata Hquestion Hdecode.
  step_pure ltac:(simpl; rewrite Hcache; reflexivity). cbv iota.
  step_pure ltac:(simpl; rewrite Hcache; reflexivity).
  step_pure ltac:(reflexivity). cbv iota.
  change (Z.of_nat (length [JStr answer]) >? 1) with false. cbv iota.
  step_pure ltac:(simpl; rewrite Hcache; reflexivity).
  step_pure ltac:(reflexivity).
  step_pure ltac:(reflexivity).
  step_pure ltac:(exact Htoken).
  step_by ltac:(exact Hpost).
  rewrite Hfalsy. reflexivity.
Qed.

(** A pass on a question the cache does not hold. *)
Lemma iteration_unknown w login token try_login cache c1 r1 code1 qcm q64
  question ps rs username :
  getitem login "token" = Ok token →
  provider (sent w) (qcm_get_request token) = Reply c1 (Some (JObj r1)) →
  assoc "code" r1 = Some code1 →
  eq_int code1 200 = true →
  assoc "data" r1 = Some qcm →
  getitem qcm "question" = Ok (JStr q64) →
  b64decode_utf8 q64 = Some question →
  getitem qcm "propositions" = Ok (JArr (JStr <$> ps)) →
  Forall2 (fun p r => b64decode_utf8 p = Some r) ps rs →
  assoc question cache = None →
  disk_writable w = true →
  data !! "username" = Some username →
  iteration EVENT_TYPE provider data config_path login try_login (JObj cache) w
  = (Ret (Continue (try_login - 1)
            (JObj (assoc_set question (JArr (JStr <$> rs)) cache))),
     with_event
       (with_file (answered w token qcm_get_url None (JObj r1))
          (qcm_path config_path)
          (Stored (JObj (assoc_set question (JArr (JStr <$> rs)) cache))))
       (EVENT_TYPE,
        JObj [("device_id", JStr ("ED - " +:+ username));
              ("type", JStr "new_qcm");
              ("question", JStr question)])).
Proof.
  intros Htoken Hreply Hcode H200 Hdata Hquestion Hdecode Hprops Hrs Hcache
    Hwritable Husername.
  open_pass Htoken Hreply Hcode H200 Hdata Hquestion Hdecode.
  step_pure ltac:(simpl; rewrite Hcache; reflexivity). cbv iota.
  step_pure ltac:(exact Hprops).
  step_pure ltac:(reflexivity).
  step_pure ltac:(apply decode_all_strings; exact Hrs).
  step_pure ltac:(reflexivity).
  step_by ltac:(unfold dump_json; simpl; rewrite Hwritable; reflexivity).
  step_pure ltac:(unfold config; rewrite Husername; reflexivity).
  reflexivity.
Qed.

(** C6.  When the decoded question is in the cache with exactly one
    candidate and the provider takes it, the loop posts that candidate,
    base64-encoded, and ends on that pass with the pair [(cn, cv)] the
    provider returned; the counter is the one the pass started with, still
    positive, and neither the disk nor the event bus has changed.  The two
    requests of the pass are given in full: the fetch of the challenge with
    the default payload, then the post to the answer endpoint whose payload
    is the object with the one field [choix] holding the candidate in
    base64, both with the headers of the token and the timeout of 120. *)
Theorem cached_answer_accepted w login token try_login cache c1 r1 code1 qcm q64
  question answer c2 r2 code2 cn_et_cv cn cv fuel :
  0 < try_login →
  getitem login "token" = Ok token →
  provider (sent w) (qcm_get_request token) = Reply c1 (Some (JObj r1)) →
  assoc "code" r1 = Some code1 →
  eq_int code1 200 = true →
  assoc "data" r1 = Some qcm →
  getitem qcm "question" = Ok (JStr q64) →
  b64decode_utf8 q64 = Some question →
  assoc question cache = Some (JArr [JStr answer]) →
  provider (sent w ++ [qcm_get_request token])
    (qcm_post_request token (b64encode_utf8 answer))
    = Reply c2 (Some (JObj r2)) →
  assoc "code" r2 = Some code2 →
  eq_int code2 200 = true →
  assoc "data" r2 = Some cn_et_cv →
  truthy cn_et_cv = true →
  getitem cn_et_cv "cn" = Ok cn →
  getitem cn_et_cv "cv" = Ok cv →
  ∃ w',
    challenge_loop EVENT_TYPE provider data config_path (S fuel) login try_login
      (JObj cache) w
    = (Ret (try_login, Some (cn, cv)), w')
    ∧ sent w'
      = sent w ++ [qcm_get_request token;
                   qcm_post_request token (b64encode_utf8 answer)]
    ∧ disk w' = disk w
    ∧ fired w' = fired w
    ∧ sent w'
      = sent w
        ++ [Request
              [Lit "https://api.ecoledirecte.com/v3/connexion/doubleauth.awp?verbe=get&v=4.55.0"]
              [Lit "data={}"]
              (get_headers token) 120;
            Request
              [Lit "https://api.ecoledirecte.com/v3/connexion/doubleauth.awp?verbe=post&v=4.55.0"]
              [Lit ("data={" +:+ String "034"%char "choix"
                    +:+ String "034"%char ": " +:+ String "034"%char "");
               Lit (b64encode_utf8 answer);
               Lit (String "034"%char "}")]
              (get_headers token) 120].
Proof.
  intros Hpos Htoken Hreply Hcode H200 Hdata Hquestion Hdecode Hcache
    Hreply2 Hcode2 H200' Hdata2 Htruthy Hcn Hcv.
  eexists. split.
  - cbn [challenge_loop].
    replace (try_login >? 0) with true by (symmetry; apply Z.gtb_lt; lia).
    step_by ltac:(eapply iteration_accepted; eassumption).
    reflexivity.
  - split; [simpl; by rewrite <- app_assoc|].
    split; [reflexivity|]. split; [reflexivity|].
    simpl. by rewrite <- app_assoc.
Qed.

(** C7.  After a pass on a question the cache does not hold, the cache in
    memory and the cache file both map the question to the list of all the
    decoded candidates, one event carrying the device identifier, the type
    [new_qcm] and the decoded question has been fired, and the counter is
    one less. *)
Theorem unknown_question_recorded w login token try_login cache c1 r1 code1 qcm
  q64 question ps rs username :
  getitem login "token" = Ok token →
  provider (sent w) (qcm_get_request token) = Reply c1 (Some (JObj r1)) →
  assoc "code" r1 = Some code1 →
  eq_int code1 200 = true →
  assoc "data" r1 = Some qcm →
  getitem qcm "question" = Ok (JStr q64) →
  b64decode_utf8 q64 = Some question →
  getitem qcm "propositions" = Ok (JArr (JStr <$> ps)) →
  Forall2 (fun p r => b64decode_utf8 p = Some r) ps rs →
  assoc question cache = None →
  disk_writable w = true →
  data !! "username" = Some username →
  ∃ cache' w',
    iteration EVENT_TYPE provider data config_path login try_login (JObj cache) w
    = (Ret (Continue (try_login - 1) (JObj cache')), w')
    ∧ assoc question cache' = Some (JArr (JStr <$> rs))
    ∧ (∀ other, other ≠ question → assoc other cache' = assoc other cache)
    ∧ disk w' !! qcm_path config_path = Some (Stored (JObj cache'))
    ∧ fired w'
      = fired w ++ [(EVENT_TYPE,
                     JObj [("device_id", JStr ("ED - " +:+ username));
                           ("type", JStr "new_qcm");
                           ("question", JStr question)])].
Proof.
  intros Htoken Hreply Hcode H200 Hdata Hquestion Hdecode Hprops Hrs Hcache
    Hwritable Husername.
  eexists _, _. split.
  - eapply iteration_unknown; eassumption.
  - split; [apply assoc_set_eq|].
    split; [intros other Hother; by apply assoc_set_ne|].
    split; [simpl; apply lookup_insert_eq | reflexivity].
Qed.

(** C2.  When the body of the handshake raises an exception that is not a
    [QCMError], [get_ecoledirecte_session] logs it as critical and returns
    [None]; when it raises a [QCMError], the same exception leaves
    [get_ecoledirecte_session], after a warning. *)
Theorem session_errors fuel w :
  (∀ e, fst (handshake EVENT_TYPE provider data config_path fuel w) = Raise e →
        is_QCMError e = false →
        get_ecoledirecte_session EVENT_TYPE provider data config_path fuel w
        = (Ret None,
           with_log (snd (handshake EVENT_TYPE provider data config_path fuel w))
             (LogRecord CRITICAL (LExn e) [])))
  ∧ (∀ msg,
       fst (handshake EVENT_TYPE provider data config_path fuel w)
         = Raise (QCMError msg) →
       get_ecoledirecte_session EVENT_TYPE provider data config_path fuel w
       = (Raise (QCMError msg),
          with_log (snd (handshake EVENT_TYPE provider data config_path fuel w))
            (LogRecord WARNING (LExn (QCMError msg)) []))).
Proof.
  unfold get_ecoledirecte_session, try_except, bind.
  destruct (handshake _ _ _ _ _ _) as [[session|e|] w']; simpl; split; try done.
  - intros e' [= <-] Hother. by destruct e.
  - by intros msg [= ->].
Qed.

(** What leaves [get_ecoledirecte_session]: a result, a [QCMError], or
    nothing yet. *)
Lemma session_raises_only_QCMError fuel w e :
  fst (get_ecoledirecte_session EVENT_TYPE provider data config_path fuel w)
    = Raise e →
  is_QCMError e = true.
Proof.
  unfold get_ecoledirecte_session, try_except, bind.
  destruct (handshake _ _ _ _ _ _) as [[session|e'|] w']; simpl; try done.
  destruct e'; simpl; try done. by intros [= <-].
Qed.

(** C10.  [check_ecoledirecte_session] returns [True] when the handshake
    raises [QCMError]; when the handshake returns, it returns [True] exactly
    when there is a session; and it raises nothing. *)
Theorem check_session_result fuel w :
  let r := get_ecoledirecte_session EVENT_TYPE provider data config_path fuel w in
  let c := check_ecoledirecte_session EVENT_TYPE provider data config_path fuel w in
  (∀ msg, fst r = Raise (QCMError msg) → c = (Ret true, snd r))
  ∧ (∀ session, fst r = Ret session →
       c = (Ret (if session is Some _ then true else false), snd r))
  ∧ (∀ e, fst c ≠ Raise e).
Proof.
  intros r c. subst c.
  pose proof (session_raises_only_QCMError fuel w) as Honly. fold r in Honly.
  unfold check_ecoledirecte_session, try_except, bind.
  fold r. destruct r as [[session|e|] w']; simpl in *.
  - split; [done|]. split; [by intros ? [= <-]|done].
  - specialize (Honly e eq_refl). by destruct e.
  - split; [done|]. split; done.
Qed.

(** The handshake up to the moment the cache file is needed. *)
Lemma handshake_reads_cache fuel w username password content r code :
  data !! "username" = Some username →
  data !! "password" = Some password →
  provider (sent w) (login_request username password)
    = Reply content (Some (JObj r)) →
  assoc "code" r = Some code →
  eq_int code 250 = true →
  cache_unusable (disk w !! qcm_path config_path) = true →
  handshake EVENT_TYPE provider data config_path fuel w
  = (Raise (if disk w !! qcm_path config_path is Some Garbled
            then ValueError else OSError),
     answered w JNull login_url
       (Some [Lit (credentials_of username password +:+ "}")]) (JObj r)).
Proof.
  intros Husername Hpassword Hreply Hcode H250 Hfile.
  unfold handshake.
  step_pure ltac:(unfold credentials, config; rewrite Husername, Hpassword;
                  reflexivity).
  step_by ltac:(rewrite (get_response_object _ _ _ _ _ _ _ Hreply), Hcode, H250;
                reflexivity).
  step_pure ltac:(simpl; rewrite Hcode; reflexivity).
  rewrite H250. cbv iota.
  apply bind_Raise. apply bind_Raise.
  unfold load_json. simpl.
  by destruct (disk w !! qcm_path config_path) as [[| |j]|].
Qed.

(** C3 (amended).  When the first login answers that a challenge is
    required and the cache file is absent, cannot be opened or is not JSON,
    the handshake stops there: the error is caught by the general handler
    and logged as critical, [get_ecoledirecte_session] returns [None], no
    further request is sent and the disk is left as it was, so that the
    file is not created. *)
Theorem unusable_cache_gives_no_session fuel w username password content r code :
  data !! "username" = Some username →
  data !! "password" = Some password →
  provider (sent w) (login_request username password)
    = Reply content (Some (JObj r)) →
  assoc "code" r = Some code →
  eq_int code 250 = true →
  cache_unusable (disk w !! qcm_path config_path) = true →
  ∃ e w',
    get_ecoledirecte_session EVENT_TYPE provider data config_path fuel w
    = (Ret None, w')
    ∧ sent w' = sent w ++ [login_request username password]
    ∧ disk w' = disk w
    ∧ fired w' = fired w
    ∧ last (logged w') = Some (LogRecord CRITICAL (LExn e) []).
Proof.
  intros Husername Hpassword Hreply Hcode H250 Hfile.
  pose proof (handshake_reads_cache fuel w _ _ _ _ _
                Husername Hpassword Hreply Hcode H250 Hfile) as Hhandshake.
  set (e := if disk w !! qcm_path config_path is Some Garbled
            then ValueError else OSError) in *.
  exists e.
  exists (with_log
            (answered w JNull login_url
               (Some [Lit (credentials_of username password +:+ "}")]) (JObj r))
            (LogRecord CRITICAL (LExn e) [])).
  split; [|split; [|split; [|split]]].
  - unfold get_ecoledirecte_session, try_except, bind. rewrite Hhandshake.
    subst e. by destruct (disk w !! qcm_path config_path) as [[| |j]|].
  - reflexivity.
  - reflexivity.
  - reflexivity.
  - simpl. apply last_snoc.
Qed.

(** Once the loop has left with its counter at zero, the handshake raises
    [QCMError] in the world the loop left: nothing more is sent. *)
Lemma tries_spent_raise fuel w username password content r code qcm_json found w2 :
  data !! "username" = Some username →
  data !! "password" = Some password →
  provider (sent w) (login_request username password)
    = Reply content (Some (JObj r)) →
  assoc "code" r = Some code →
  eq_int code 250 = true →
  disk w !! qcm_path config_path = Some (Stored qcm_json) →
  challenge_loop EVENT_TYPE provider data config_path fuel (JObj r) 5 qcm_json
    (answered w JNull login_url
       (Some [Lit (credentials_of username password +:+ "}")]) (JObj r))
  = (Ret (0, found), w2) →
  get_ecoledirecte_session EVENT_TYPE provider data config_path fuel w
  = (Raise (QCMError qcm_exhausted),
     with_log w2 (LogRecord WARNING (LExn (QCMError qcm_exhausted)) [])).
Proof.
  intros Husername Hpassword Hreply Hcode H250 Hfile Hloop.
  assert (handshake EVENT_TYPE provider data config_path fuel w
          = (Raise (QCMError qcm_exhausted), w2)) as Hhandshake.
  { unfold handshake.
    step_pure ltac:(unfold credentials, config; rewrite Husername, Hpassword;
                    reflexivity).
    step_by ltac:(rewrite (get_response_object _ _ _ _ _ _ _ Hreply), Hcode, H250;
                  reflexivity).
    step_pure ltac:(simpl; rewrite Hcode; reflexivity).
    rewrite H250. cbv iota.
    apply bind_Raise.
    step_by ltac:(unfold load_json; simpl; rewrite Hfile; reflexivity).
    step_by ltac:(exact Hloop).
    reflexivity. }
  unfold get_ecoledirecte_session, try_except, bind. by rewrite Hhandshake.
Qed.

(** A pass never raises the counter, and lowers it by one at most. *)
Lemma iteration_counter login try_login qcm_json w s w' :
  iteration EVENT_TYPE provider data config_path login try_login qcm_json w
    = (Ret s, w') →
  match s with
  | Continue try_login' _ => try_login' = try_login ∨ try_login' = try_login - 1
  | Break try_login' _ _ _ => try_login' = try_login
  end.
Proof.
  unfold iteration, bind.
  repeat match goal with
         | |- context [match ?m ?x with (_, _) => _ end] =>
             destruct (m x) as [[?|?|] ?]; try done
         | |- context [if ?b then _ else _] => destruct b
         end;
    cbv [ret raise lift]; intros [= <- _]; auto.
Qed.

End HandshakeProperties.

(** ** The handshake on the scenario *)

Lemma stubborn_pass w :
  iteration (lib := Bytes.lib) Scenario.EVENT Scenario.stubborn Scenario.data
    Scenario.config_path Scenario.login_250_body 5 (JObj Scenario.solved_cache) w
  = (Ret (Continue 5 (JObj Scenario.solved_cache)), Scenario.refused_pass w).
Proof.
  eapply (iteration_rejected (lib := Bytes.lib)); reflexivity.
Qed.

Lemma stubborn_loop fuel w :
  challenge_loop (lib := Bytes.lib) Scenario.EVENT Scenario.stubborn Scenario.data
    Scenario.config_path fuel Scenario.login_250_body 5
    (JObj Scenario.solved_cache) w
  = (Diverge, Nat.iter fuel Scenario.refused_pass w).
Proof.
  revert w. induction fuel as [|fuel IH]; intros w; [reflexivity|].
  cbn [challenge_loop]. change (5 >? 0) with true. cbv iota.
  step_by ltac:(apply stubborn_pass). cbv iota.
  rewrite IH. by rewrite <- Nat.iter_succ_r.
Qed.

Lemma refused_pass_sent w :
  sent (Scenario.refused_pass w)
  = sent w ++ [qcm_get_request (JStr "tok");
               qcm_post_request (JStr "tok")
                 (b64encode_utf8 (PyLib := Bytes.lib) "42")].
Proof. simpl. by rewrite <- app_assoc. Qed.

Lemma refused_passes_sent n w :
  length (sent (Nat.iter n Scenario.refused_pass w)) = (length (sent w) + 2 * n)%nat
  ∧ Scenario.passes (Nat.iter n Scenario.refused_pass w)
    = (Scenario.passes w + n)%nat.
Proof.
  induction n as [|n [IHsent IHpasses]]; [split; simpl; lia|].
  unfold Scenario.passes in *. rewrite !Nat.iter_succ.
  rewrite refused_pass_sent, List.filter_app, !length_app, IHsent, IHpasses.
  split; simpl; lia.
Qed.

(** C1, on a provider that refuses the cached answer each time.  The
    question is in the cache with the one candidate 42, and every post of it
    comes back with code 200 and no data.  Whatever the number of passes
    allowed, the loop has made that many passes, two requests each, and is
    still running with its counter at 5: it is not bounded by 5 passes and
    does not end. *)
Theorem refused_answer_never_ends fuel :
  get_ecoledirecte_session (lib := Bytes.lib) Scenario.EVENT Scenario.stubborn
    Scenario.data Scenario.config_path fuel (Scenario.host Scenario.solved)
  = (Diverge, Scenario.stuck fuel)
  ∧ Scenario.passes (Scenario.stuck fuel) = fuel
  ∧ length (sent (Scenario.stuck fuel)) = (1 + 2 * fuel)%nat.
Proof.
  split.
  - unfold get_ecoledirecte_session, try_except.
    erewrite bind_Diverge; [reflexivity|].
    unfold handshake.
    step_pure ltac:(reflexivity).
    step_by ltac:(reflexivity).
    step_pure ltac:(reflexivity).
    change (eq_int (JInt 250) 250) with true. cbv iota.
    apply bind_Diverge.
    step_by ltac:(reflexivity).
    apply bind_Diverge. apply stubborn_loop.
  - unfold Scenario.stuck.
    destruct (refused_passes_sent fuel (Scenario.after_login Scenario.solved))
      as [-> ->].
    split; reflexivity.
Qed.

Lemma session_errors_witness :
  get_ecoledirecte_session (lib := Bytes.lib) Scenario.EVENT
    (Scenario.always NoReply) Scenario.data Scenario.config_path 5
    (Scenario.host Scenario.blank)
  = (Ret None,
     with_log
       (snd (handshake (lib := Bytes.lib) Scenario.EVENT (Scenario.always NoReply)
               Scenario.data Scenario.config_path 5 (Scenario.host Scenario.blank)))
       (LogRecord CRITICAL (LExn ConnectionError) []))
  ∧ get_ecoledirecte_session (lib := Bytes.lib) Scenario.EVENT Scenario.stubborn
      Scenario.data Scenario.config_path 5 (Scenario.host Scenario.blank)
    = (Raise (QCMError qcm_exhausted),
       with_log
         (snd (handshake (lib := Bytes.lib) Scenario.EVENT Scenario.stubborn
                 Scenario.data Scenario.config_path 5
                 (Scenario.host Scenario.blank)))
         (LogRecord WARNING (LExn (QCMError qcm_exhausted)) [])).
Proof.
  split.
  - apply (proj1 (session_errors (lib := Bytes.lib) Scenario.EVENT
                    (Scenario.always NoReply) Scenario.data Scenario.config_path 5
                    (Scenario.host Scenario.blank)));
      vm_compute; reflexivity.
  - apply (proj2 (session_errors (lib := Bytes.lib) Scenario.EVENT
                    Scenario.stubborn Scenario.data Scenario.config_path 5
                    (Scenario.host Scenario.blank)));
      vm_compute; reflexivity.
Defined.

Lemma check_session_result_witness :
  check_ecoledirecte_session (lib := Bytes.lib) Scenario.EVENT Scenario.stubborn
    Scenario.data Scenario.config_path 5 (Scenario.host Scenario.blank)
  = (Ret true,
     snd (get_ecoledirecte_session (lib := Bytes.lib) Scenario.EVENT
            Scenario.stubborn Scenario.data Scenario.config_path 5
            (Scenario.host Scenario.blank)))
  ∧ check_ecoledirecte_session (lib := Bytes.lib) Scenario.EVENT
      (Scenario.always NoReply) Scenario.data Scenario.config_path 5
      (Scenario.host Scenario.blank)
    = (Ret false,
       snd (get_ecoledirecte_session (lib := Bytes.lib) Scenario.EVENT
              (Scenario.always NoReply) Scenario.data Scenario.config_path 5
              (Scenario.host Scenario.blank))).
Proof.
  split.
  - apply (proj1 (check_session_result (lib := Bytes.lib) Scenario.EVENT
                    Scenario.stubborn Scenario.data Scenario.config_path 5
                    (Scenario.host Scenario.blank)) qcm_exhausted);
      vm_compute; reflexivity.
  - apply (proj1 (proj2 (check_session_result (lib := Bytes.lib) Scenario.EVENT
                           (Scenario.always NoReply) Scenario.data
                           Scenario.config_path 5 (Scenario.host Scenario.blank)))
             None);
      vm_compute; reflexivity.
Defined.

Lemma unusable_cache_gives_no_session_witness :
  ∃ e w',
    get_ecoledirecte_session (lib := Bytes.lib) Scenario.EVENT Scenario.stubborn
      Scenario.data Scenario.config_path 5 (Scenario.host ∅)
    = (Ret None, w')
    ∧ sent w' = sent (Scenario.host ∅)
                ++ [login_request (lib := Bytes.lib) "jean" "s3cret"]
    ∧ disk w' = disk (Scenario.host ∅)
    ∧ fired w' = fired (Scenario.host ∅)
    ∧ last (logged w') = Some (LogRecord CRITICAL (LExn e) []).
Proof.
  apply (unusable_cache_gives_no_session (lib := Bytes.lib) Scenario.EVENT
           Scenario.stubborn Scenario.data Scenario.config_path 5
           (Scenario.host ∅) "jean" "s3cret" ""
           [("code", JInt 250); ("token", JStr "tok");
            ("message", JStr "Authentification a deux facteurs requise")]
           (JInt 250));
    reflexivity.
Defined.

(** C3, as first stated, fails when the cache file is absent: the error
    does not leave [get_ecoledirecte_session], which returns [None]; the
    file is still absent afterwards. *)
Lemma missing_cache_is_caught :
  let r :=
    get_ecoledirecte_session (lib := Bytes.lib) Scenario.EVENT Scenario.stubborn
      Scenario.data Scenario.config_path 5 (Scenario.host ∅) in
  fst r = Ret None
  ∧ (∀ e, fst r ≠ Raise e)
  ∧ disk (snd r) !! qcm_path Scenario.config_path = None.
Proof.
  split; [vm_compute; reflexivity|].
  split; [intros e; vm_compute; discriminate | vm_compute; reflexivity].
Qed.

Lemma cached_answer_accepted_witness :
  ∃ w',
    challenge_loop (lib := Bytes.lib) Scenario.EVENT Scenario.lenient
      Scenario.data Scenario.config_path 1 Scenario.login_250_body 5
      (JObj Scenario.solved_cache) (Scenario.after_login Scenario.solved)
    = (Ret (5, Some (JStr "Y24=", JStr "Y3Y=")), w')
    ∧ sent w'
      = sent (Scenario.after_login Scenario.solved)
        ++ [qcm_get_request (JStr "tok");
            qcm_post_request (JStr "tok")
              (b64encode_utf8 (PyLib := Bytes.lib) "42")]
    ∧ disk w' = disk (Scenario.after_login Scenario.solved)
    ∧ fired w' = fired (Scenario.after_login Scenario.solved)
    ∧ sent w'
      = sent (Scenario.after_login Scenario.solved)
        ++ [Request
              [Lit "https://api.ecoledirecte.com/v3/connexion/doubleauth.awp?verbe=get&v=4.55.0"]
              [Lit "data={}"]
              (get_headers (JStr "tok")) 120;
            Request
              [Lit "https://api.ecoledirecte.com/v3/connexion/doubleauth.awp?verbe=post&v=4.55.0"]
              [Lit ("data={" +:+ String "034"%char "choix"
                    +:+ String "034"%char ": " +:+ String "034"%char "");
               Lit "NDI=";
               Lit (String "034"%char "}")]
              (get_headers (JStr "tok")) 120].
Proof.
  apply (cached_answer_accepted (lib := Bytes.lib) Scenario.EVENT
           Scenario.lenient Scenario.data Scenario.config_path
           (Scenario.after_login Scenario.solved) Scenario.login_250_body
           (JStr "tok") 5 Scenario.solved_cache
           "" [("code", JInt 200); ("token", JStr "tok"); ("data", Scenario.qcm)]
           (JInt 200) Scenario.qcm Scenario.question64 Scenario.question "42"
           "" [("code", JInt 200);
               ("data", JObj [("cn", JStr "Y24="); ("cv", JStr "Y3Y=")])]
           (JInt 200) (JObj [("cn", JStr "Y24="); ("cv", JStr "Y3Y=")])
           (JStr "Y24=") (JStr "Y3Y=") 0%nat);
    reflexivity.
Defined.

Lemma unknown_question_recorded_witness :
  ∃ cache' w',
    iteration (lib := Bytes.lib) Scenario.EVENT Scenario.stubborn Scenario.data
      Scenario.config_path Scenario.login_250_body 5 (JObj [])
      (Scenario.after_login Scenario.blank)
    = (Ret (Continue (5 - 1) (JObj cache')), w')
    ∧ assoc Scenario.question cache' = Some (JArr (JStr <$> ["42"; "Paris"]))
    ∧ (∀ other, other ≠ Scenario.question → assoc other cache' = assoc other [])
    ∧ disk w' !! qcm_path Scenario.config_path = Some (Stored (JObj cache'))
    ∧ fired w'
      = fired (Scenario.after_login Scenario.blank)
        ++ [(Scenario.EVENT,
             JObj [("device_id", JStr ("ED - " +:+ "jean"));
                   ("type", JStr "new_qcm");
                   ("question", JStr Scenario.question)])].
Proof.
  apply (unknown_question_recorded (lib := Bytes.lib) Scenario.EVENT
           Scenario.stubborn Scenario.data Scenario.config_path
           (Scenario.after_login Scenario.blank) Scenario.login_250_body
           (JStr "tok") 5 []
           "" [("code", JInt 200); ("token", JStr "tok"); ("data", Scenario.qcm)]
           (JInt 200) Scenario.qcm Scenario.question64 Scenario.question
           ["NDI="; "UGFyaXM="] ["42"; "Paris"] "jean");
    try reflexivity.
  repeat constructor.
Defined.

(** The whole handshake on a provider that takes the cached answer: the
    session is built from the second login. *)
Example handshake_with_cached_answer :
  ∃ session w',
    get_ecoledirecte_session (lib := Bytes.lib) Scenario.EVENT Scenario.honest
      Scenario.data Scenario.config_path 5 (Scenario.host Scenario.solved)
    = (Ret (Some session), w')
    ∧ session_token session = JStr "tok"
    ∧ session_modules session = [JStr "NOTES"]
    ∧ (get_fullname_lower <$> session_eleves session) = [Ok "jean_paul_o_brien"]
    ∧ length (sent w') = 4%nat
    ∧ disk w' = Scenario.solved.
Proof.
  eexists _, _. split; [vm_compute; reflexivity|].
  repeat split; vm_compute; reflexivity.
Qed.

(** With no cached answer the five tries are spent: one records the
    question, four skip it, and the handshake raises [QCMError] after the
    five fetches of the challenge and no post. *)
Example handshake_exhausts_tries :
  let r :=
    get_ecoledirecte_session (lib := Bytes.lib) Scenario.EVENT Scenario.stubborn
      Scenario.data Scenario.config_path 5 (Scenario.host Scenario.blank) in
  fst r = Raise (QCMError qcm_exhausted)
  ∧ Scenario.passes (snd r) = 5%nat
  ∧ length (sent (snd r)) = 6%nat
  ∧ length (fired (snd r)) = 1%nat.
Proof. repeat split; vm_compute; reflexivity. Qed.

(** A network failure, a body that is not JSON, a body of an unexpected
    shape and a configuration entry without a user name all end in [None]. *)
Example session_unavailable :
  fst (get_ecoledirecte_session (lib := Bytes.lib) Scenario.EVENT
         (Scenario.always NoReply) Scenario.data Scenario.config_path 5
         (Scenario.host Scenario.blank)) = Ret None
  ∧ fst (get_ecoledirecte_session (lib := Bytes.lib) Scenario.EVENT
           (Scenario.always (Reply "<html>" None)) Scenario.data
           Scenario.config_path 5 (Scenario.host Scenario.blank)) = Ret None
  ∧ fst (get_ecoledirecte_session (lib := Bytes.lib) Scenario.EVENT
           (Scenario.always (Scenario.body (JObj [("code", JInt 200)])))
           Scenario.data Scenario.config_path 5 (Scenario.host Scenario.blank))
    = Ret None
  ∧ fst (get_ecoledirecte_session (lib := Bytes.lib) Scenario.EVENT
           Scenario.honest ∅ Scenario.config_path 5
           (Scenario.host Scenario.blank)) = Ret None.
Proof. repeat split; vm_compute; reflexivity. Qed.

(** * Further properties *)

(** ** Transport *)

Lemma get_response_without_body provider token url payload w :
  (provider (sent w) (request_for token url payload) = NoReply →
   get_response provider token url payload w
   = (Raise ConnectionError, posted w token url payload))
  ∧ (∀ content,
       provider (sent w) (request_for token url payload) = Reply content None →
       get_response provider token url payload w
       = (Raise (RequestError
                   ([Lit "Error with URL:["] ++ url
                    ++ [Lit "]: "; FmtBytes content])),
          posted w token url payload)).
Proof.
  unfold get_response, bind, logf, log, requests_post.
  unfold posted, request_for. simpl.
  split; [intros -> | intros content ->]; reflexivity.
Qed.

(** X1.  When the call to the provider fails, [get_response] lets the
    failure through; when the body is not JSON, it raises [RequestError]
    with the URL and the content of the response, a [bytes] object
    formatted as such.  In both cases the request has been sent. *)
Theorem get_response_no_body provider token url payload w :
  (provider (sent w) (request_for token url payload) = NoReply →
   get_response provider token url payload w
   = (Raise ConnectionError, posted w token url payload))
  ∧ (∀ content,
       provider (sent w) (request_for token url payload) = Reply content None →
       get_response provider token url payload w
       = (Raise (RequestError
                   ([Lit "Error with URL:["] ++ url
                    ++ [Lit "]: "; FmtBytes content])),
          posted w token url payload)).
Proof. apply get_response_without_body. Qed.

Lemma get_response_no_body_witness :
  get_response (Scenario.always NoReply) JNull login_url None (Scenario.host ∅)
  = (Raise ConnectionError, posted (Scenario.host ∅) JNull login_url None)
  ∧ get_response (Scenario.always (Reply "<html>" None)) JNull login_url None
      (Scenario.host ∅)
    = (Raise (RequestError
                ([Lit "Error with URL:["] ++ login_url
                 ++ [Lit "]: "; FmtBytes "<html>"])),
       posted (Scenario.host ∅) JNull login_url None).
Proof.
  split.
  - exact (proj1 (get_response_no_body (Scenario.always NoReply) JNull login_url
                    None (Scenario.host ∅)) eq_refl).
  - exact (proj2 (get_response_no_body (Scenario.always (Reply "<html>" None))
                    JNull login_url None (Scenario.host ∅)) "<html>" eq_refl).
Defined.

(** X2.  A body [get_response] returns is the JSON object the provider
    sent, and its [code] is 200, or 250 when no token was given. *)
Theorem get_response_returned provider token url payload w body w1 :
  get_response provider token url payload w = (Ret body, w1) →
  ∃ content kvs code,
    provider (sent w) (request_for token url payload) = Reply content (Some body)
    ∧ body = JObj kvs
    ∧ assoc "code" kvs = Some code
    ∧ (eq_int code 200 = true
       ∨ (eq_int code 250 = true ∧ is_None token = true))
    ∧ w1 = answered w token url payload body.
Proof.
  intros Hret.
  destruct (provider (sent w) (request_for token url payload))
    as [|content [j|]] eqn:Hreply.
  - rewrite (proj1 (get_response_without_body _ _ _ _ _) Hreply) in Hret. done.
  - destruct j as [ | | | | s | l | kvs ];
      try (revert Hret; unfold get_response, bind, logf, log, requests_post;
           unfold request_for in Hreply; simpl; rewrite Hreply; simpl;
           repeat match goal with
                  | |- context [if ?b then _ else _] => destruct b; simpl
                  end; done).
    rewrite (get_response_object _ _ _ _ _ _ _ Hreply) in Hret.
    destruct (assoc "code" kvs) as [code|] eqn:Hcode; [|done].
    destruct (eq_int code 250 && is_None token) eqn:H250.
    + injection Hret as <- <-. apply andb_prop in H250 as [? ?].
      eexists content, kvs, code. eauto 10.
    + destruct (eq_int code 200) eqn:H200.
      * injection Hret as <- <-. eexists content, kvs, code. eauto 10.
      * by destruct (assoc "message" kvs).
  - rewrite (proj2 (get_response_without_body _ _ _ _ _) _ Hreply) in Hret. done.
Qed.

Lemma get_response_returned_witness :
  ∃ content kvs code,
    Scenario.always Scenario.login_250 (sent (Scenario.host ∅))
      (request_for JNull login_url None)
    = Reply content (Some Scenario.login_250_body)
    ∧ Scenario.login_250_body = JObj kvs
    ∧ assoc "code" kvs = Some code
    ∧ (eq_int code 200 = true
       ∨ (eq_int code 250 = true ∧ is_None JNull = true))
    ∧ answered (Scenario.host ∅) JNull login_url None Scenario.login_250_body
      = answered (Scenario.host ∅) JNull login_url None Scenario.login_250_body.
Proof.
  exact (get_response_returned (Scenario.always Scenario.login_250) JNull
           login_url None (Scenario.host ∅) Scenario.login_250_body _ eq_refl).
Defined.

Lemma get_response_sends_one provider token url payload w :
  let w' := snd (get_response provider token url payload w) in
  sent w' = sent w ++ [request_for token url payload] ∧ quiet w w'.
Proof.
  unfold get_response, bind, logf, log, requests_post, quiet.
  unfold request_for. simpl.
  destruct (provider _ _) as [|content [j|]]; simpl; [done| |done].
  destruct (contains "code" j) as [[]|]; simpl; [|done|done].
  destruct (getitem j "code") as [code|]; simpl; [|done].
  destruct (eq_int code 250 && is_None token); simpl; [done|].
  destruct (eq_int code 200); simpl; [done|].
  by destruct (getitem j "message").
Qed.

(** X3.  Whatever the provider answers, [get_response] sends exactly one
    request, the one built from its arguments, and leaves the disk and the
    event bus alone. *)
Theorem get_response_effects provider token url payload w :
  let w' := snd (get_response provider token url payload w) in
  sent w' = sent w ++ [request_for token url payload] ∧ quiet w w'.
Proof. apply get_response_sends_one. Qed.

(** X4.  The headers carry [X-Token] exactly when a token is given, with
    the token as its value, and the token changes no other header. *)
Theorem get_headers_token token :
  assoc "X-Token" (get_headers token) = (if is_None token then None else Some token)
  ∧ ∀ name, name ≠ "X-Token" →
      assoc name (get_headers token) = assoc name (get_headers JNull).
Proof.
  split.
  - destruct token; try apply assoc_set_eq. reflexivity.
  - intros name Hname.
    destruct token; try reflexivity; unfold get_headers;
      by rewrite assoc_set_ne.
Qed.

Lemma get_headers_token_witness :
  assoc "Content-Type" (get_headers (JStr "tok"))
  = assoc "Content-Type" (get_headers JNull).
Proof.
  apply (proj2 (get_headers_token (JStr "tok")) "Content-Type"). discriminate.
Defined.

(** ** Domain objects *)

(** Entries the loop accepts leave what follows them to decide. *)
Lemma enabled_codes_after good tail e :
  forallb module_ok good = true →
  enabled_codes tail = Err e →
  enabled_codes (good ++ tail) = Err e.
Proof.
  intros Hgood Htail. induction good as [|module good IH]; [done|].
  simpl in Hgood. apply andb_prop in Hgood as [Hmodule Hgood].
  specialize (IH Hgood).
  destruct module as [ | | | | | |kvs]; try done. simpl in Hmodule.
  cbn [app enabled_codes getitem].
  destruct (assoc "enable" kvs) as [enable|]; [|done]. cbn [rbind].
  destruct (truthy enable); [|exact IH].
  destruct (assoc "code" kvs) as [code|]; [|done]. cbn [rbind].
  by rewrite IH.
Qed.

(** X5.  From a list of module entries that each carry [enable] (and
    [code] when enabled), the constructors keep the codes of the enabled
    entries, in their order.  Otherwise the first entry the loop cannot
    read, wherever it is in the list, decides the error: [KeyError] on
    [enable] for an object without it, [KeyError] on [code] for an enabled
    object without a code, [TypeError] for an entry that is no object. *)
Theorem enabled_codes_filter modules :
  (forallb module_ok modules = true →
   enabled_codes modules = Ok (code_of <$> List.filter enabled modules))
  ∧ (∀ good kvs rest,
       modules = good ++ JObj kvs :: rest →
       forallb module_ok good = true →
       assoc "enable" kvs = None →
       enabled_codes modules = Err (KeyError (JStr "enable")))
  ∧ (∀ good kvs enable rest,
       modules = good ++ JObj kvs :: rest →
       forallb module_ok good = true →
       assoc "enable" kvs = Some enable →
       truthy enable = true →
       assoc "code" kvs = None →
       enabled_codes modules = Err (KeyError (JStr "code")))
  ∧ (∀ good entry rest,
       modules = good ++ entry :: rest →
       forallb module_ok good = true →
       (∀ kvs, entry ≠ JObj kvs) →
       enabled_codes modules = Err TypeError).
Proof.
  split; [|split; [|split]].
  - induction modules as [|module rest IH]; simpl; [done|].
    intros [Hm Hrest]%andb_prop. specialize (IH Hrest).
    destruct module as [ | | | | | |kvs]; try done. simpl in Hm.
    destruct (assoc "enable" kvs) as [enable|] eqn:Henable; [|done].
    assert (enabled (JObj kvs) = truthy enable) as Henabled.
    { unfold enabled. simpl. by rewrite Henable. }
    cbn [enabled_codes getitem List.filter]. rewrite Henable, Henabled.
    cbn [rbind]. destruct (truthy enable); [|exact IH].
    destruct (assoc "code" kvs) as [code|] eqn:Hcode; [|done].
    assert (code_of (JObj kvs) = code) as Hcode_of.
    { unfold code_of. simpl. by rewrite Hcode. }
    cbn [rbind]. rewrite IH. cbn [rbind]. by rewrite fmap_cons, Hcode_of.
  - intros good kvs rest -> Hgood Henable.
    apply enabled_codes_after; [done|]. simpl. by rewrite Henable.
  - intros good kvs enable rest -> Hgood Henable Htruthy Hcode.
    apply enabled_codes_after; [done|]. cbn [enabled_codes getitem].
    rewrite Henable. cbn [rbind]. by rewrite Htruthy, Hcode.
  - intros good entry rest -> Hgood Hentry.
    apply enabled_codes_after; [done|].
    destruct entry as [ | | | | | |kvs]; try done. by destruct (Hentry kvs).
Qed.

Lemma enabled_codes_filter_witness :
  enabled_codes
    [JObj [("code", JStr "NOTES"); ("enable", JBool true)];
     JObj [("enable", JBool false)];
     JObj [("code", JStr "EDT"); ("enable", JInt 1)]]
  = Ok (code_of
          <$> List.filter enabled
                [JObj [("code", JStr "NOTES"); ("enable", JBool true)];
                 JObj [("enable", JBool false)];
                 JObj [("code", JStr "EDT"); ("enable", JInt 1)]])
  ∧ enabled_codes
      [JObj [("code", JStr "NOTES"); ("enable", JBool true)];
       JObj [("code", JStr "VIE")];
       JObj [("code", JStr "EDT"); ("enable", JInt 1)]]
    = Err (KeyError (JStr "enable"))
  ∧ enabled_codes
      [JObj [("enable", JBool false)]; JObj [("enable", JBool true)]]
    = Err (KeyError (JStr "code"))
  ∧ enabled_codes
      [JObj [("code", JStr "NOTES"); ("enable", JBool true)]; JStr "VIE"]
    = Err TypeError.
Proof.
  split; [|split; [|split]].
  - exact (proj1 (enabled_codes_filter
                    [JObj [("code", JStr "NOTES"); ("enable", JBool true)];
                     JObj [("enable", JBool false)];
                     JObj [("code", JStr "EDT"); ("enable", JInt 1)]]) eq_refl).
  - exact (proj1 (proj2 (enabled_codes_filter
                           [JObj [("code", JStr "NOTES"); ("enable", JBool true)];
                            JObj [("code", JStr "VIE")];
                            JObj [("code", JStr "EDT"); ("enable", JInt 1)]]))
             [JObj [("code", JStr "NOTES"); ("enable", JBool true)]]
             [("code", JStr "VIE")]
             [JObj [("code", JStr "EDT"); ("enable", JInt 1)]]
             eq_refl eq_refl eq_refl).
  - exact (proj1 (proj2 (proj2 (enabled_codes_filter
                           [JObj [("enable", JBool false)];
                            JObj [("enable", JBool true)]])))
             [JObj [("enable", JBool false)]] [("enable", JBool true)]
             (JBool true) [] eq_refl eq_refl eq_refl eq_refl eq_refl).
  - refine (proj2 (proj2 (proj2 (enabled_codes_filter
                           [JObj [("code", JStr "NOTES"); ("enable", JBool true)];
                            JStr "VIE"])))
              [JObj [("code", JStr "NOTES"); ("enable", JBool true)]]
              (JStr "VIE") [] eq_refl eq_refl _).
    intros kvs. discriminate.
Defined.

(** X6.  A student built from a record without [classe] has neither a
    [classe_id] nor a [classe_name] attribute. *)
Theorem EDEleve_without_classe kvs establishment a1 a2 a3 a4 a5 a6 self :
  assoc "classe" kvs = None →
  EDEleve (JObj kvs) establishment a1 a2 a3 a4 a5 a6 = Ok self →
  self !! "classe_id" = None ∧ self !! "classe_name" = None
  ∧ getattr self "classe_id" = Err (AttributeError "classe_id").
Proof.
  intros Hclasse. unfold EDEleve, getattr. cbn [is_None contains getitem].
  rewrite Hclasse. cbn [rbind].
  destruct (assoc "id" kvs) as [id|]; [|done].
  destruct (assoc "nom" kvs) as [nom|]; [|done].
  destruct (assoc "prenom" kvs) as [prenom|]; [|done].
  destruct (assoc "modules" kvs) as [modules|]; [|done]. cbn [rbind].
  destruct (iter modules) as [l|]; [|done]. cbn [rbind].
  destruct (enabled_codes l) as [codes|]; [|done]. cbn [rbind].
  intros [= <-]. repeat split; vm_compute; reflexivity.
Qed.

Lemma EDEleve_without_classe_witness :
  let self : instance :=
    <["modules" := JArr []]>
      (<["establishment" := JStr "Lycee"]>
         (<["eleve_firstname" := JStr "Lea"]>
            (<["eleve_lastname" := JStr "Martin"]>
               (<["eleve_id" := JInt 3]> ∅)))) in
  self !! "classe_id" = None ∧ self !! "classe_name" = None
  ∧ getattr self "classe_id" = Err (AttributeError "classe_id").
Proof.
  exact (EDEleve_without_classe
           [("id", JInt 3); ("nom", JStr "Martin"); ("prenom", JStr "Lea");
            ("modules", JArr [])]
           (JStr "Lycee") JNull JNull JNull JNull JNull JNull _ eq_refl eq_refl).
Defined.

(** X7.  A student record needs [id], [nom], [prenom] and [modules]: the
    first one missing, in that order, is the key of the [KeyError] the
    constructor raises. *)
Theorem EDEleve_missing_key kvs establishment a1 a2 a3 a4 a5 a6 :
  classe_ok kvs = true →
  let r := EDEleve (JObj kvs) establishment a1 a2 a3 a4 a5 a6 in
  (assoc "id" kvs = None → r = Err (KeyError (JStr "id")))
  ∧ (is_Some (assoc "id" kvs) → assoc "nom" kvs = None →
     r = Err (KeyError (JStr "nom")))
  ∧ (is_Some (assoc "id" kvs) → is_Some (assoc "nom" kvs) →
     assoc "prenom" kvs = None → r = Err (KeyError (JStr "prenom")))
  ∧ (is_Some (assoc "id" kvs) → is_Some (assoc "nom" kvs) →
     is_Some (assoc "prenom" kvs) → assoc "modules" kvs = None →
     r = Err (KeyError (JStr "modules"))).
Proof.
  intros Hclasse. unfold EDEleve, classe_ok in *. cbn [is_None contains getitem].
  destruct (assoc "classe" kvs) as [classe|]; cbn [rbind].
  - destruct classe as [ | | | | | |c]; try done. cbn [getitem].
    destruct (assoc "id" c) as [cid|]; [|done].
    destruct (assoc "libelle" c) as [lib|]; [|done]. cbn [rbind].
    repeat split.
    + by intros ->.
    + by intros [? ->] ->.
    + by intros [? ->] [? ->] ->.
    + by intros [? ->] [? ->] [? ->] ->.
  - repeat split.
    + by intros ->.
    + by intros [? ->] ->.
    + by intros [? ->] [? ->] ->.
    + by intros [? ->] [? ->] [? ->] ->.
Qed.

Lemma EDEleve_missing_key_witness :
  EDEleve (JObj [("id", JInt 3); ("prenom", JStr "Lea")]) (JStr "Lycee")
    JNull JNull JNull JNull JNull JNull
  = Err (KeyError (JStr "nom")).
Proof.
  exact (proj1 (proj2
           (EDEleve_missing_key [("id", JInt 3); ("prenom", JStr "Lea")]
              (JStr "Lycee") JNull JNull JNull JNull JNull JNull eq_refl))
           (ex_intro _ (JInt 3) eq_refl) eq_refl).
Defined.

Lemma all_chars_app p s t :
  all_chars p (s +:+ t) = all_chars p s && all_chars p t.
Proof.
  induction s as [|c s IH]; [done|].
  change (String c s +:+ t) with (String c (s +:+ t)). simpl.
  by rewrite IH, andb_assoc.
Qed.

Lemma lower_letter_is_lower c :
  is_letter (lower_char c) = true → token_char (lower_char c) = true.
Proof. by destruct c as [[] [] [] [] [] [] [] []]. Qed.

Lemma token_chars_lower s :
  all_chars token_char (re_sub_non_letter "_" (lower s)) = true.
Proof.
  induction s as [|c s IH]; [done|]. cbn [lower re_sub_non_letter].
  rewrite all_chars_app, IH, andb_true_r.
  destruct (is_letter (lower_char c)) eqn:Hletter; [|done].
  simpl. by rewrite lower_letter_is_lower.
Qed.

(** X8.  Whatever the names are, the identifier [get_fullname_lower]
    returns is made of lower-case letters and underscores only. *)
Theorem get_fullname_lower_alphabet (self : instance) token :
  get_fullname_lower self = Ok token →
  all_chars token_char token = true.
Proof.
  unfold get_fullname_lower, getattr.
  destruct (self !! "eleve_firstname") as [first|]; [|done]. cbn [rbind].
  destruct first as [ | | | | first | | ]; try done. cbn [str_lower rbind].
  destruct (self !! "eleve_lastname") as [last|]; [|done]. cbn [rbind].
  destruct last as [ | | | | last | | ]; try done. cbn [str_lower rbind].
  intros [= <-]. by rewrite !all_chars_app, !token_chars_lower.
Qed.

Lemma get_fullname_lower_alphabet_witness :
  all_chars token_char "jean_paul_o_brien" = true.
Proof.
  exact (get_fullname_lower_alphabet Scenario.eleve "jean_paul_o_brien" eq_refl).
Defined.

(** X9.  [get_fullname_lower] raises [AttributeError] when the first name
    is not a string (a student built with no first name has [None] there),
    and when the attribute was never set. *)
Theorem get_fullname_lower_no_name (self : instance) :
  (self !! "eleve_firstname" = None →
   get_fullname_lower self = Err (AttributeError "eleve_firstname"))
  ∧ (∀ v, self !! "eleve_firstname" = Some v → as_str v = Err TypeError →
       get_fullname_lower self = Err (AttributeError "lower")).
Proof.
  unfold get_fullname_lower, getattr. split.
  - by intros ->.
  - intros v -> Hv. by destruct v.
Qed.

Lemma get_fullname_lower_no_name_witness :
  get_fullname_lower (<["eleve_firstname" := JNull]> ∅)
  = Err (AttributeError "lower")
  ∧ get_fullname_lower ∅ = Err (AttributeError "eleve_firstname").
Proof.
  split.
  - exact (proj2 (get_fullname_lower_no_name (<["eleve_firstname" := JNull]> ∅))
             JNull eq_refl eq_refl).
  - exact (proj1 (get_fullname_lower_no_name ∅) eq_refl).
Defined.

(** Given a value that is neither a string nor a container, the
    Homework, Grade and Lesson constructors raise [TypeError] at their
    first membership test. *)
Theorem flat_records_scalar data pour_le :
  scalar data = true →
  EDHomework data pour_le = Err TypeError
  ∧ EDGrade data = Err TypeError
  ∧ EDLesson data = Err TypeError.
Proof. by destruct data. Qed.

Lemma flat_records_scalar_witness :
  EDHomework JNull (JStr "2024-05-17") = Err TypeError
  ∧ EDGrade JNull = Err TypeError
  ∧ EDLesson JNull = Err TypeError.
Proof. exact (flat_records_scalar JNull (JStr "2024-05-17") eq_refl). Defined.

(** X10.  A lesson built from an object without [end_date] has no
    [end_date] attribute: the empty default goes to [tend_date].  With the
    key there, [end_date] is set and [tend_date] is not. *)
Theorem EDLesson_end_date kvs :
  ∃ self, EDLesson (JObj kvs) = Ok self
          ∧ (assoc "end_date" kvs = None →
             self !! "end_date" = None ∧ self !! "tend_date" = Some (JStr "")
             ∧ getattr self "end_date" = Err (AttributeError "end_date"))
          ∧ (∀ v, assoc "end_date" kvs = Some v →
               self !! "end_date" = Some v ∧ self !! "tend_date" = None).
Proof.
  destruct (assoc "end_date" kvs) as [end_date|] eqn:Hend;
    (eexists; split; [|split]).
  - unfold EDLesson. do 6 copy_field.
    etrans; [eapply rbind_Ok; simpl; rewrite Hend; reflexivity | cbv beta iota].
    etrans; [eapply rbind_Ok; simpl; rewrite Hend; reflexivity | cbv beta].
    do 16 copy_field. apply copy_or_object.
  - done.
  - intros v [= <-]. split; read_field.
  - unfold EDLesson. do 6 copy_field.
    etrans; [eapply rbind_Ok; simpl; rewrite Hend; reflexivity | cbv beta iota].
    etrans; [eapply rbind_Ok; reflexivity | cbv beta].
    do 16 copy_field. apply copy_or_object.
  - intros _. repeat split; read_field.
  - done.
Qed.

Lemma EDLesson_end_date_witness :
  ∃ self, EDLesson (JObj [("id", JInt 7)]) = Ok self
          ∧ self !! "end_date" = None ∧ self !! "tend_date" = Some (JStr "")
          ∧ getattr self "end_date" = Err (AttributeError "end_date").
Proof.
  destruct (EDLesson_end_date [("id", JInt 7)]) as (self & Hself & Hnone & _).
  exists self. split; [exact Hself | exact (Hnone eq_refl)].
Defined.

Lemma linked_eleves_length data eleves instances :
  linked_eleves data eleves = Ok instances →
  length instances = length eleves.
Proof.
  revert instances. induction eleves as [|eleve rest IH]; intros instances; simpl.
  - by intros [= <-].
  - destruct (account data) as [acc|]; [|done]. cbn [rbind].
    destruct (getitem acc "nomEtablissement") as [etab|]; [|done]. cbn [rbind].
    destruct (EDEleve _ _ _ _ _ _ _ _) as [e|]; [|done]. cbn [rbind].
    destruct (linked_eleves data rest) as [es|]; [|done]. cbn [rbind].
    intros [= <-]. simpl. by rewrite (IH es).
Qed.

(** X11.  A session on a student account (type E) has exactly one
    student: the account itself, with the identifier and the modules of the
    session. *)
Theorem EDSession_student_account data session :
  EDSession_init data = Ok session →
  eq_str (session_account_type session) "E" = true →
  ∃ eleve, session_eleves session = [eleve]
           ∧ eleve !! "eleve_id" = Some (session_id session)
           ∧ eleve !! "modules" = Some (JArr (session_modules session)).
Proof.
  unfold EDSession_init.
  destruct (getitem data "token") as [token|]; [|done]. cbn [rbind].
  destruct (account data) as [acc|]; [|done]. cbn [rbind].
  destruct (getitem acc "id") as [id|]; [|done]. cbn [rbind].
  destruct (getitem acc "identifiant") as [identifiant|]; [|done]. cbn [rbind].
  destruct (getitem acc "idLogin") as [id_login|]; [|done]. cbn [rbind].
  destruct (getitem acc "typeCompte") as [account_type|]; [|done]. cbn [rbind].
  destruct (getitem acc "modules") as [modules|]; [|done]. cbn [rbind].
  destruct (iter modules) as [l|]; [|done]. cbn [rbind].
  destruct (enabled_codes l) as [codes|]; [|done]. cbn [rbind].
  destruct (eq_str account_type "E") eqn:Htype.
  - destruct (getitem acc "nomEtablissement") as [etab|]; [|done]. cbn [rbind].
    destruct (getitem acc "prenom") as [prenom|]; [|done]. cbn [rbind].
    destruct (getitem acc "nom") as [nom|]; [|done]. cbn [rbind].
    destruct (getitem acc "profile") as [profile|]; [|done]. cbn [rbind].
    destruct (getitem profile "classe") as [classe|]; [|done]. cbn [rbind].
    destruct (getitem classe "id") as [classe_id|]; [|done]. cbn [rbind].
    destruct (getitem classe "libelle") as [libelle|]; [|done]. cbn [rbind].
    intros [= <-] _. eexists. split; [reflexivity|].
    split; vm_compute; reflexivity.
  - destruct (getitem acc "profile") as [profile|]; [|done]. cbn [rbind].
    destruct (contains "eleves" profile) as [[]|]; [| |done]; cbn [rbind].
    + destruct (getitem profile "eleves") as [eleves|]; [|done]. cbn [rbind].
      destruct (iter eleves) as [le|]; [|done]. cbn [rbind].
      destruct (linked_eleves data le) as [es|]; [|done]. cbn [rbind].
      intros [= <-]. simpl. by rewrite Htype.
    + intros [= <-]. simpl. by rewrite Htype.
Qed.

(** X12.  A session on any other account has one student for each entry
    of [eleves] in the profile, and none when the profile has no such
    entry. *)
Theorem EDSession_parent_account data session :
  EDSession_init data = Ok session →
  eq_str (session_account_type session) "E" = false →
  ∃ acc profile,
    account data = Ok acc
    ∧ getitem acc "profile" = Ok profile
    ∧ match getitem profile "eleves" with
      | Ok eleves =>
          ∃ entries, iter eleves = Ok entries
                     ∧ length (session_eleves session) = length entries
      | Err _ => session_eleves session = []
      end.
Proof.
  unfold EDSession_init.
  destruct (getitem data "token") as [token|]; [|done]. cbn [rbind].
  destruct (account data) as [acc|]; [|done]. cbn [rbind].
  destruct (getitem acc "id") as [id|]; [|done]. cbn [rbind].
  destruct (getitem acc "identifiant") as [identifiant|]; [|done]. cbn [rbind].
  destruct (getitem acc "idLogin") as [id_login|]; [|done]. cbn [rbind].
  destruct (getitem acc "typeCompte") as [account_type|]; [|done]. cbn [rbind].
  destruct (getitem acc "modules") as [modules|]; [|done]. cbn [rbind].
  destruct (iter modules) as [l|]; [|done]. cbn [rbind].
  destruct (enabled_codes l) as [codes|]; [|done]. cbn [rbind].
  destruct (eq_str account_type "E") eqn:Htype.
  - destruct (getitem acc "nomEtablissement") as [etab|]; [|done]. cbn [rbind].
    destruct (getitem acc "prenom") as [prenom|]; [|done]. cbn [rbind].
    destruct (getitem acc "nom") as [nom|]; [|done]. cbn [rbind].
    destruct (getitem acc "profile") as [profile|]; [|done]. cbn [rbind].
    destruct (getitem profile "classe") as [classe|]; [|done]. cbn [rbind].
    destruct (getitem classe "id") as [classe_id|]; [|done]. cbn [rbind].
    destruct (getitem classe "libelle") as [libelle|]; [|done]. cbn [rbind].
    intros [= <-]. simpl. by rewrite Htype.
  - destruct (getitem acc "profile") as [profile|] eqn:Hprofile; [|done].
    cbn [rbind].
    destruct (contains "eleves" profile) as [[]|] eqn:Hhas; [| |done];
      cbn [rbind].
    + destruct (getitem profile "eleves") as [eleves|] eqn:Heleves; [|done].
      cbn [rbind].
      destruct (iter eleves) as [entries|] eqn:Hentries; [|done]. cbn [rbind].
      destruct (linked_eleves data entries) as [es|] eqn:Hes; [|done].
      cbn [rbind]. intros [= <-] _. exists acc, profile.
      split; [done|]. split; [done|]. rewrite Heleves.
      exists entries. split; [done|].
      by apply linked_eleves_length in Hes.
    + intros [= <-] _. exists acc, profile. split; [done|]. split; [done|].
      destruct profile as [ | | | | | |pkvs]; try done. simpl in *.
      by destruct (assoc "eleves" pkvs).
Qed.

Example EDSession_of_accounts :
  EDSession_init Accounts.student = Ok Accounts.student_session
  ∧ EDSession_init Accounts.parent = Ok Accounts.parent_session.
Proof. split; vm_compute; reflexivity. Qed.

Lemma EDSession_student_account_witness :
  ∃ eleve, session_eleves Accounts.student_session = [eleve]
           ∧ eleve !! "eleve_id" = Some (session_id Accounts.student_session)
           ∧ eleve !! "modules"
             = Some (JArr (session_modules Accounts.student_session)).
Proof.
  apply (EDSession_student_account Accounts.student Accounts.student_session);
    vm_compute; reflexivity.
Defined.

Lemma EDSession_parent_account_witness :
  ∃ acc profile,
    account Accounts.parent = Ok acc
    ∧ getitem acc "profile" = Ok profile
    ∧ match getitem profile "eleves" with
      | Ok eleves =>
          ∃ entries, iter eleves = Ok entries
                     ∧ length (session_eleves Accounts.parent_session)
                       = length entries
      | Err _ => session_eleves Accounts.parent_session = []
      end.
Proof.
  apply (EDSession_parent_account Accounts.parent Accounts.parent_session);
    vm_compute; reflexivity.
Defined.

(** ** Data-fetch operations *)

Ltac fetch_raise Hattr Hresp :=
  step_pure ltac:(exact Hattr); apply bind_Raise; exact Hresp.

(** X13.  The data-fetch operations catch nothing: an error raised by the
    transport call leaves each of them as it is, in the world the transport
    left. *)
Theorem fetch_error_surfaces provider token (eleve : instance) eleve_id w e w1 :
  getattr eleve "eleve_id" = Ok eleve_id →
  (∀ date,
     get_response provider token (homeworks_by_date_url eleve_id date) None w
       = (Raise e, w1) →
     get_homeworks_by_date provider token eleve date w = (Raise e, w1))
  ∧ (get_response provider token (homeworks_url eleve_id) None w = (Raise e, w1) →
     get_homeworks provider token eleve w = (Raise e, w1))
  ∧ (∀ annee_scolaire,
       get_response provider token (grades_url eleve_id)
         (Some (grades_payload annee_scolaire)) w = (Raise e, w1) →
       get_grades provider token eleve annee_scolaire w = (Raise e, w1))
  ∧ (∀ date_debut date_fin,
       get_response provider token (lessons_url eleve_id)
         (Some (lessons_payload date_debut date_fin)) w = (Raise e, w1) →
       get_lessons provider token eleve date_debut date_fin w = (Raise e, w1)).
Proof.
  intros Hattr. repeat split.
  - intros date Hresp. unfold get_homeworks_by_date. fetch_raise Hattr Hresp.
  - intros Hresp. unfold get_homeworks. fetch_raise Hattr Hresp.
  - intros annee Hresp. unfold get_grades. fetch_raise Hattr Hresp.
  - intros debut fin Hresp. unfold get_lessons. fetch_raise Hattr Hresp.
Qed.

Lemma fetch_error_surfaces_witness :
  get_grades
    (Scenario.always
       (Scenario.body (JObj [("code", JInt 520); ("message", JStr "Token invalide")])))
    (JStr "tok") Scenario.eleve (JStr "A001") (Scenario.host ∅)
  = (Raise (RequestError
              ([Lit "Error with URL:["] ++ grades_url (JInt 1001)
               ++ [Lit "] - Code "; Fmt (JInt 520); Lit ": ";
                   Fmt (JStr "Token invalide")])),
     posted (Scenario.host ∅) (JStr "tok") (grades_url (JInt 1001))
       (Some (grades_payload (JStr "A001")))).
Proof.
  exact (proj1 (proj2 (proj2
           (fetch_error_surfaces
              (Scenario.always
                 (Scenario.body
                    (JObj [("code", JInt 520); ("message", JStr "Token invalide")])))
              (JStr "tok") Scenario.eleve (JInt 1001) (Scenario.host ∅) _ _
              eq_refl)))
           (JStr "A001") eq_refl).
Defined.

(** X14.  On a student that has no [eleve_id] attribute, each data-fetch
    operation raises [AttributeError] before anything is sent or logged. *)
Theorem fetch_without_id provider token (eleve : instance) w :
  eleve !! "eleve_id" = None →
  (∀ date, get_homeworks_by_date provider token eleve date w
           = (Raise (AttributeError "eleve_id"), w))
  ∧ get_homeworks provider token eleve w = (Raise (AttributeError "eleve_id"), w)
  ∧ (∀ annee_scolaire, get_grades provider token eleve annee_scolaire w
                       = (Raise (AttributeError "eleve_id"), w))
  ∧ (∀ date_debut date_fin,
       get_lessons provider token eleve date_debut date_fin w
       = (Raise (AttributeError "eleve_id"), w)).
Proof.
  intros Hattr.
  unfold get_homeworks_by_date, get_homeworks, get_grades, get_lessons,
    bind, lift, getattr.
  rewrite Hattr. done.
Qed.

Lemma fetch_without_id_witness :
  get_homeworks (Scenario.always Scenario.accepted) (JStr "tok") ∅
    (Scenario.host ∅)
  = (Raise (AttributeError "eleve_id"), Scenario.host ∅).
Proof.
  exact (proj1 (proj2 (fetch_without_id (Scenario.always Scenario.accepted)
                         (JStr "tok") ∅ (Scenario.host ∅) eq_refl))).
Defined.

Lemma fetch_tail_effects fmt (m : M json) w req :
  (∀ body w1, m w = (Ret body, w1) → ∃ kvs, body = JObj kvs) →
  sent (snd (m w)) = sent w ++ [req] ∧ quiet w (snd (m w)) →
  let r :=
    bind m (fun json_resp =>
      bind (lift (contains "data" json_resp)) (fun has_data =>
        if has_data then lift (getitem json_resp "data")
        else bind (logf WARNING fmt [LVal json_resp]) (fun _ => ret JNull))) w in
  sent (snd r) = sent w ++ [req] ∧ quiet w (snd r).
Proof.
  intros Hobject Heffects. unfold bind at 1.
  destruct (m w) as [[body|e|] w1] eqn:Hm; [|done|done].
  destruct (Hobject body w1 eq_refl) as [kvs ->].
  unfold bind, lift, logf, log, ret. simpl.
  by destruct (assoc "data" kvs).
Qed.

Ltac fetch_effects Hattr :=
  cbv zeta; erewrite bind_lift_Ok by exact Hattr;
  apply fetch_tail_effects;
  [intros body w1; apply get_response_returns | apply get_response_sends_one].

(** X15.  On a student with an identifier, each data-fetch operation sends
    exactly one request: the one to its own endpoint, with the token in the
    headers.  It touches neither the disk nor the event bus. *)
Theorem fetch_one_request provider token (eleve : instance) eleve_id w :
  getattr eleve "eleve_id" = Ok eleve_id →
  (∀ date,
     let w' := snd (get_homeworks_by_date provider token eleve date w) in
     sent w' = sent w
               ++ [request_for token (homeworks_by_date_url eleve_id date) None]
     ∧ quiet w w')
  ∧ (let w' := snd (get_homeworks provider token eleve w) in
     sent w' = sent w ++ [request_for token (homeworks_url eleve_id) None]
     ∧ quiet w w')
  ∧ (∀ annee_scolaire,
       let w' := snd (get_grades provider token eleve annee_scolaire w) in
       sent w' = sent w
                 ++ [request_for token (grades_url eleve_id)
                       (Some (grades_payload annee_scolaire))]
       ∧ quiet w w')
  ∧ (∀ date_debut date_fin,
       let w' := snd (get_lessons provider token eleve date_debut date_fin w) in
       sent w' = sent w
                 ++ [request_for token (lessons_url eleve_id)
                       (Some (lessons_payload date_debut date_fin))]
       ∧ quiet w w').
Proof.
  intros Hattr. split; [|split; [|split]].
  - intros date. unfold get_homeworks_by_date. fetch_effects Hattr.
  - unfold get_homeworks. fetch_effects Hattr.
  - intros annee. unfold get_grades. fetch_effects Hattr.
  - intros debut fin. unfold get_lessons. fetch_effects Hattr.
Qed.

Lemma fetch_one_request_witness :
  let w' :=
    snd (get_lessons (Scenario.always Scenario.rejected) (JStr "tok")
           Scenario.eleve (JStr "2024-05-13") (JStr "2024-05-19")
           (Scenario.host ∅)) in
  sent w' = sent (Scenario.host ∅)
            ++ [request_for (JStr "tok") (lessons_url (JInt 1001))
                  (Some (lessons_payload (JStr "2024-05-13") (JStr "2024-05-19")))]
  ∧ quiet (Scenario.host ∅) w'.
Proof.
  exact (proj2 (proj2 (proj2
           (fetch_one_request (Scenario.always Scenario.rejected) (JStr "tok")
              Scenario.eleve (JInt 1001) (Scenario.host ∅) eq_refl)))
           (JStr "2024-05-13") (JStr "2024-05-19")).
Defined.

(** ** Authentication handshake *)

Section HandshakeFurther.

Context {lib : PyLib}.
Variable EVENT_TYPE : string.
Variable provider : list request → request → reply.
Variable data : gmap string string.
Variable config_path : string.

Ltac begin_pass Htoken Hreply Hcode H200 Hdata Hquestion Hdecode :=
  unfold iteration;
  step_pure ltac:(exact Htoken);
  step_by ltac:(eapply get_qcm_connexion_data;
                [exact Hreply | exact Hcode | exact H200 | exact Hdata]);
  step_pure ltac:(exact Hquestion);
  step_pure ltac:(reflexivity);
  step_pure ltac:(rewrite Hdecode; reflexivity).

(** A pass on a question the cache holds with several candidates. *)
Lemma iteration_ambiguous w login token try_login cache c1 r1 code1 qcm q64
  question answers n :
  getitem login "token" = Ok token →
  provider (sent w) (qcm_get_request token) = Reply c1 (Some (JObj r1)) →
  assoc "code" r1 = Some code1 →
  eq_int code1 200 = true →
  assoc "data" r1 = Some qcm →
  getitem qcm "question" = Ok (JStr q64) →
  b64decode_utf8 q64 = Some question →
  assoc question cache = Some answers →
  len answers = Ok n →
  1 < n →
  iteration EVENT_TYPE provider data config_path login try_login (JObj cache) w
  = (Ret (Continue (try_login - 1) (JObj cache)),
     answered w token qcm_get_url None (JObj r1)).
Proof.
  intros Htoken Hreply Hcode H200 Hdata Hquestion Hdecode Hcache Hlen Hn.
  begin_pass Htoken Hreply Hcode H200 Hdata Hquestion Hdecode.
  step_pure ltac:(simpl; rewrite Hcache; reflexivity). cbv iota.
  step_pure ltac:(simpl; rewrite Hcache; reflexivity).
  step_pure ltac:(exact Hlen).
  replace (n >? 1) with true by (symmetry; apply Z.gtb_lt; lia).
  reflexivity.
Qed.

(** X16.  On a question the cache holds with more than one candidate, a
    pass only fetches the challenge: no answer is posted, the disk and the
    event bus are left alone, the cache is the same and the counter is one
    less. *)
Theorem ambiguous_question_skipped w login token try_login cache c1 r1 code1 qcm
  q64 question answers n :
  getitem login "token" = Ok token →
  provider (sent w) (qcm_get_request token) = Reply c1 (Some (JObj r1)) →
  assoc "code" r1 = Some code1 →
  eq_int code1 200 = true →
  assoc "data" r1 = Some qcm →
  getitem qcm "question" = Ok (JStr q64) →
  b64decode_utf8 q64 = Some question →
  assoc question cache = Some answers →
  len answers = Ok n →
  1 < n →
  ∃ w',
    iteration EVENT_TYPE provider data config_path login try_login (JObj cache) w
    = (Ret (Continue (try_login - 1) (JObj cache)), w')
    ∧ sent w' = sent w ++ [qcm_get_request token]
    ∧ quiet w w'.
Proof.
  intros. eexists. split; [eapply iteration_ambiguous; eassumption|].
  by split.
Qed.

(** X17.  When the loop returns, either it has a pair and its counter is
    positive and no more than at the start, or it has no pair and its
    counter is not positive; started from a counter that is not negative, it
    has no pair exactly when the counter is zero. *)
Theorem challenge_loop_result fuel login try_login qcm_json w final found w' :
  challenge_loop EVENT_TYPE provider data config_path fuel login try_login
    qcm_json w = (Ret (final, found), w') →
  match found with
  | Some _ => 0 < final ≤ try_login
  | None => final ≤ 0 ∧ (0 ≤ try_login → final = 0)
  end.
Proof.
  assert (Hstop : ∀ t : Z, (t >? 0) = false → t ≤ 0).
  { intros t Ht. rewrite Z.gtb_ltb in Ht. by apply Z.ltb_ge. }
  revert try_login qcm_json w.
  induction fuel as [|fuel IH]; intros try_login qcm_json w; cbn [challenge_loop];
    destruct (try_login >? 0) eqn:Hpos.
  - done.
  - intros [= <- <- _]. apply Hstop in Hpos. lia.
  - apply Z.gtb_lt in Hpos. unfold bind.
    destruct (iteration _ _ _ _ _ _ _ _) as [[s|e|] w1] eqn:Hpass; [|done|done].
    apply iteration_counter in Hpass.
    destruct s as [t q|t q cn cv].
    + intros Hloop. apply IH in Hloop. destruct found; lia.
    + intros [= <- <- _]. lia.
  - intros [= <- <- _]. apply Hstop in Hpos. lia.
Qed.

Lemma ambiguous_loop login token cache c1 r1 code1 qcm q64 question answers n :
  getitem login "token" = Ok token →
  (∀ sent_before,
     provider sent_before (qcm_get_request token) = Reply c1 (Some (JObj r1))) →
  assoc "code" r1 = Some code1 →
  eq_int code1 200 = true →
  assoc "data" r1 = Some qcm →
  getitem qcm "question" = Ok (JStr q64) →
  b64decode_utf8 q64 = Some question →
  assoc question cache = Some answers →
  len answers = Ok n →
  1 < n →
  ∀ tries fuel w, (tries ≤ fuel)%nat →
    challenge_loop EVENT_TYPE provider data config_path fuel login
      (Z.of_nat tries) (JObj cache) w
    = (Ret (0, None),
       Nat.iter tries (fun w => answered w token qcm_get_url None (JObj r1)) w).
Proof.
  intros Htoken Hreply Hcode H200 Hdata Hquestion Hdecode Hcache Hlen Hn.
  induction tries as [|tries IH]; intros fuel w Hfuel.
  - by destruct fuel.
  - destruct fuel as [|fuel]; [lia|]. cbn [challenge_loop].
    replace (Z.of_nat (S tries) >? 0) with true by (symmetry; apply Z.gtb_lt; lia).
    step_by ltac:(eapply iteration_ambiguous; try eassumption; apply Hreply).
    cbv iota. replace (Z.of_nat (S tries) - 1) with (Z.of_nat tries) by lia.
    rewrite IH by lia. by rewrite Nat.iter_succ_r.
Qed.

(** X18.  When the provider keeps asking a question the cache holds with
    more than one candidate, the handshake fetches the challenge five
    times, posts no answer, writes nothing and raises [QCMError]. *)
Theorem ambiguous_question_exhausts fuel w username password content r code token
  cache c1 r1 code1 qcm q64 question answers n :
  data !! "username" = Some username →
  data !! "password" = Some password →
  provider (sent w) (login_request username password)
    = Reply content (Some (JObj r)) →
  assoc "code" r = Some code →
  eq_int code 250 = true →
  assoc "token" r = Some token →
  disk w !! qcm_path config_path = Some (Stored (JObj cache)) →
  (∀ sent_before,
     provider sent_before (qcm_get_request token) = Reply c1 (Some (JObj r1))) →
  assoc "code" r1 = Some code1 →
  eq_int code1 200 = true →
  assoc "data" r1 = Some qcm →
  getitem qcm "question" = Ok (JStr q64) →
  b64decode_utf8 q64 = Some question →
  assoc question cache = Some answers →
  len answers = Ok n →
  1 < n →
  (5 ≤ fuel)%nat →
  ∃ w',
    get_ecoledirecte_session EVENT_TYPE provider data config_path fuel w
    = (Raise (QCMError qcm_exhausted), w')
    ∧ sent w' = sent w ++ login_request username password
                          :: replicate 5 (qcm_get_request token)
    ∧ quiet w w'.
Proof.
  intros Husername Hpassword Hreply Hcode H250 Htoken Hfile Hget Hcode1 H200
    Hdata Hquestion Hdecode Hcache Hlen Hn Hfuel.
  eexists. split.
  - eapply tries_spent_raise; try eassumption.
    apply (ambiguous_loop (JObj r) token cache c1 r1 code1 qcm q64 question
             answers n) with (tries := 5%nat); try assumption.
    simpl. by rewrite Htoken.
  - split; [|done]. simpl. by rewrite <- !app_assoc.
Qed.

Lemma EDSession_init_identifiant body session :
  EDSession_init body = Ok session →
  ∃ acc identifiant,
    account body = Ok acc ∧ getitem acc "identifiant" = Ok identifiant.
Proof.
  unfold EDSession_init.
  destruct (getitem body "token") as [token|]; [|done]. cbn [rbind].
  destruct (account body) as [acc|]; [|done]. cbn [rbind].
  destruct (getitem acc "id") as [id|]; [|done]. cbn [rbind].
  destruct (getitem acc "identifiant") as [identifiant|] eqn:Hid; [|done].
  intros _. by exists acc, identifiant.
Qed.

(** What the handshake does with the body of a login that went through. *)
Lemma session_of_login body session w :
  EDSession_init body = Ok session →
  ∃ identifiant,
    bind (lift (account body)) (fun acc =>
      bind (lift (getitem acc "identifiant")) (fun identifiant =>
        bind (logf INFO "Connection OK - identifiant: [{%s}]" [LVal identifiant])
          (fun _ => lift (EDSession_init body)))) w
    = (Ret session,
       with_log w
         (LogRecord INFO (LText [Lit "Connection OK - identifiant: [{%s}]"])
            [LVal identifiant])).
Proof.
  intros Hinit.
  destruct (EDSession_init_identifiant _ _ Hinit) as (acc & identifiant & Hacc & Hid).
  exists identifiant.
  step_pure ltac:(exact Hacc).
  step_pure ltac:(exact Hid).
  step_by ltac:(reflexivity).
  by rewrite Hinit.
Qed.

(** X19.  When the first login answers code 200 with the data of an
    account, the session is built from that answer after this one request;
    the cache file is not read, whether it is there or not. *)
Theorem direct_login fuel w username password content r code session :
  data !! "username" = Some username →
  data !! "password" = Some password →
  provider (sent w) (login_request username password)
    = Reply content (Some (JObj r)) →
  assoc "code" r = Some code →
  eq_int code 200 = true →
  EDSession_init (JObj r) = Ok session →
  ∃ w',
    get_ecoledirecte_session EVENT_TYPE provider data config_path fuel w
    = (Ret (Some session), w')
    ∧ sent w' = sent w ++ [login_request username password]
    ∧ quiet w w'.
Proof.
  intros Husername Hpassword Hreply Hcode H200 Hinit.
  destruct (session_of_login (JObj r) session
              (answered w JNull login_url
                 (Some [Lit (credentials_of username password +:+ "}")]) (JObj r))
              Hinit) as [identifiant Htail].
  eexists. split.
  - unfold get_ecoledirecte_session, try_except.
    erewrite bind_Ret; [reflexivity|].
    unfold handshake.
    step_pure ltac:(unfold credentials, config; rewrite Husername, Hpassword;
                    reflexivity).
    step_by ltac:(eapply get_response_200; [exact Hreply | exact Hcode | exact H200]).
    step_pure ltac:(simpl; rewrite Hcode; reflexivity).
    rewrite (eq_int_200_not_250 _ H200). cbv iota.
    step_by ltac:(reflexivity).
    exact Htail.
  - by split.
Qed.

(** X20.  A configuration entry without [username], or without
    [password], gives no session, and nothing is sent. *)
Theorem missing_credentials fuel w :
  (data !! "username" = None →
   get_ecoledirecte_session EVENT_TYPE provider data config_path fuel w
   = (Ret None,
      with_log w (LogRecord CRITICAL (LExn (KeyError (JStr "username"))) [])))
  ∧ (∀ username, data !! "username" = Some username →
       data !! "password" = None →
       get_ecoledirecte_session EVENT_TYPE provider data config_path fuel w
       = (Ret None,
          with_log w (LogRecord CRITICAL (LExn (KeyError (JStr "password"))) []))).
Proof.
  unfold get_ecoledirecte_session, try_except, handshake, credentials, config, bind.
  split.
  - by intros ->.
  - by intros username -> ->.
Qed.

(** X21.  The whole handshake with a cached answer: after the first login
    asks for the challenge, the question is fetched, the one cached
    candidate is posted, and the login is sent again with the pair
    [(cn, cv)] the provider gave; the session is built from the answer to
    that second login.  Four requests are sent in all, and the disk and the
    event bus are left alone. *)
Theorem challenge_then_login fuel w username password content r code token cache
  c1 r1 code1 qcm q64 question answer c2 r2 code2 cn_et_cv cn cv c3 r3 code3
  session :
  data !! "username" = Some username →
  data !! "password" = Some password →
  provider (sent w) (login_request username password)
    = Reply content (Some (JObj r)) →
  assoc "code" r = Some code →
  eq_int code 250 = true →
  assoc "token" r = Some token →
  disk w !! qcm_path config_path = Some (Stored (JObj cache)) →
  provider (sent w ++ [login_request username password]) (qcm_get_request token)
    = Reply c1 (Some (JObj r1)) →
  assoc "code" r1 = Some code1 →
  eq_int code1 200 = true →
  assoc "data" r1 = Some qcm →
  getitem qcm "question" = Ok (JStr q64) →
  b64decode_utf8 q64 = Some question →
  assoc question cache = Some (JArr [JStr answer]) →
  provider (sent w ++ [login_request username password; qcm_get_request token])
    (qcm_post_request token (b64encode_utf8 answer))
    = Reply c2 (Some (JObj r2)) →
  assoc "code" r2 = Some code2 →
  eq_int code2 200 = true →
  assoc "data" r2 = Some cn_et_cv →
  truthy cn_et_cv = true →
  getitem cn_et_cv "cn" = Ok (JStr cn) →
  getitem cn_et_cv "cv" = Ok (JStr cv) →
  provider
    (sent w ++ [login_request username password; qcm_get_request token;
                qcm_post_request token (b64encode_utf8 answer)])
    (second_login_request username password cn cv)
    = Reply c3 (Some (JObj r3)) →
  assoc "code" r3 = Some code3 →
  eq_int code3 200 = true →
  EDSession_init (JObj r3) = Ok session →
  ∃ w',
    get_ecoledirecte_session EVENT_TYPE provider data config_path (S fuel) w
    = (Ret (Some session), w')
    ∧ sent w'
      = sent w ++ [login_request username password; qcm_get_request token;
                   qcm_post_request token (b64encode_utf8 answer);
                   second_login_request username password cn cv]
    ∧ quiet w w'.
Proof.
  intros Husername Hpassword Hreply Hcode H250 Htoken Hfile Hget Hcode1 H200
    Hdata Hquestion Hdecode Hcache Hpost Hcode2 H200' Hdata2 Htruthy Hcn Hcv
    Hsecond Hcode3 H200'' Hinit.
  change (sent w ++ [login_request username password; qcm_get_request token])
    with (sent w ++ [login_request username password] ++ [qcm_get_request token])
    in Hpost.
  change (sent w ++ [login_request username password; qcm_get_request token;
                     qcm_post_request token (b64encode_utf8 answer)])
    with (sent w ++ [login_request username password]
          ++ [qcm_get_request token]
          ++ [qcm_post_request token (b64encode_utf8 answer)])
    in Hsecond.
  rewrite !app_assoc in Hsecond. rewrite app_assoc in Hpost.
  set (w1 := answered w JNull login_url
               (Some [Lit (credentials_of username password +:+ "}")]) (JObj r)).
  set (w3 := answered (answered w1 token qcm_get_url None (JObj r1)) token
               qcm_post_url (Some (choix (b64encode_utf8 answer))) (JObj r2)).
  set (w4 := with_log w3
               (LogRecord DEBUG (LText [Lit "cn: [%s] - cv: [%s]"])
                  [LVal (JStr cn); LVal (JStr cv)])).
  destruct (session_of_login (JObj r3) session
              (answered w4 JNull login_url
                 (Some [Lit (credentials_of username password +:+ ", " +:+ dq
                             +:+ "fa" +:+ dq +:+ ": [{" +:+ dq +:+ "cn" +:+ dq
                             +:+ ": " +:+ dq +:+ cn +:+ dq +:+ ", " +:+ dq
                             +:+ "cv" +:+ dq +:+ ": " +:+ dq +:+ cv +:+ dq
                             +:+ "}]}")])
                 (JObj r3))
              Hinit) as [identifiant Htail].
  assert (Hloop :
    challenge_loop EVENT_TYPE provider data config_path (S fuel) (JObj r) 5
      (JObj cache) w1 = (Ret (5, Some (JStr cn, JStr cv)), w3)).
  { cbn [challenge_loop]. change (5 >? 0) with true. cbv iota.
    step_by ltac:(eapply iteration_accepted;
                  [simpl; rewrite Htoken; reflexivity | exact Hget | exact Hcode1
                  | exact H200 | exact Hdata | exact Hquestion | exact Hdecode
                  | exact Hcache | exact Hpost | exact Hcode2 | exact H200'
                  | exact Hdata2 | exact Htruthy | exact Hcn | exact Hcv]).
    reflexivity. }
  eexists. split.
  - unfold get_ecoledirecte_session, try_except.
    erewrite bind_Ret; [reflexivity|].
    unfold handshake.
    step_pure ltac:(unfold credentials, config; rewrite Husername, Hpassword;
                    reflexivity).
    step_by ltac:(rewrite (get_response_object _ _ _ _ _ _ _ Hreply), Hcode, H250;
                  reflexivity).
    step_pure ltac:(simpl; rewrite Hcode; reflexivity).
    rewrite H250. cbv iota.
    etrans; [eapply bind_Ret|exact Htail].
    step_by ltac:(unfold load_json; simpl; rewrite Hfile; reflexivity).
    step_by ltac:(exact Hloop).
    cbn [fst snd]. change (5 =? 0) with false. cbv iota.
    step_by ltac:(reflexivity).
    step_pure ltac:(unfold credentials, config; rewrite Husername, Hpassword;
                    reflexivity).
    eapply get_response_200; [exact Hsecond | exact Hcode3 | exact H200''].
  - split; [|done]. simpl. by rewrite <- !app_assoc.
Qed.

Lemma get_qcm_connexion_no_data token w content kvs code :
  provider (sent w) (qcm_get_request token) = Reply content (Some (JObj kvs)) →
  assoc "code" kvs = Some code →
  eq_int code 200 = true →
  assoc "data" kvs = None →
  get_qcm_connexion provider token w
  = (Ret JNull,
     warned (answered w token qcm_get_url None (JObj kvs))
       "get_qcm_connexion: [%s]" [LVal (JObj kvs)]).
Proof.
  intros Hreply Hcode H200 Hdata. unfold get_qcm_connexion.
  step_by ltac:(eapply get_response_200; eassumption).
  unfold bind, lift. simpl. by rewrite Hdata.
Qed.

(** X22.  When the answer to the challenge fetch has no [data], the
    handshake stops at once with no session: the error is a [TypeError],
    no answer is posted and nothing is written. *)
Theorem challenge_without_data fuel w username password content r code token
  qcm_json c1 r1 code1 :
  data !! "username" = Some username →
  data !! "password" = Some password →
  provider (sent w) (login_request username password)
    = Reply content (Some (JObj r)) →
  assoc "code" r = Some code →
  eq_int code 250 = true →
  assoc "token" r = Some token →
  disk w !! qcm_path config_path = Some (Stored qcm_json) →
  provider (sent w ++ [login_request username password]) (qcm_get_request token)
    = Reply c1 (Some (JObj r1)) →
  assoc "code" r1 = Some code1 →
  eq_int code1 200 = true →
  assoc "data" r1 = None →
  ∃ w',
    get_ecoledirecte_session EVENT_TYPE provider data config_path (S fuel) w
    = (Ret None, w')
    ∧ sent w' = sent w ++ [login_request username password; qcm_get_request token]
    ∧ quiet w w'
    ∧ last (logged w') = Some (LogRecord CRITICAL (LExn TypeError) []).
Proof.
  intros Husername Hpassword Hreply Hcode H250 Htoken Hfile Hget Hcode1 H200 Hdata.
  set (w1 := answered w JNull login_url
               (Some [Lit (credentials_of username password +:+ "}")]) (JObj r)).
  set (w2 := warned (answered w1 token qcm_get_url None (JObj r1))
               "get_qcm_connexion: [%s]" [LVal (JObj r1)]).
  assert (Hhandshake :
    handshake EVENT_TYPE provider data config_path (S fuel) w
    = (Raise TypeError, w2)).
  { unfold handshake.
    step_pure ltac:(unfold credentials, config; rewrite Husername, Hpassword;
                    reflexivity).
    step_by ltac:(rewrite (get_response_object _ _ _ _ _ _ _ Hreply), Hcode, H250;
                  reflexivity).
    step_pure ltac:(simpl; rewrite Hcode; reflexivity).
    rewrite H250. cbv iota.
    apply bind_Raise.
    step_by ltac:(unfold load_json; simpl; rewrite Hfile; reflexivity).
    apply bind_Raise. cbn [challenge_loop]. change (5 >? 0) with true. cbv iota.
    apply bind_Raise. unfold iteration.
    step_pure ltac:(simpl; rewrite Htoken; reflexivity).
    step_by ltac:(eapply get_qcm_connexion_no_data;
                  [exact Hget | exact Hcode1 | exact H200 | exact Hdata]).
    reflexivity. }
  eexists. split; [|split; [|split]].
  - unfold get_ecoledirecte_session, try_except, bind. rewrite Hhandshake.
    reflexivity.
  - simpl. by rewrite <- app_assoc.
  - done.
  - simpl. apply last_snoc.
Qed.

(** X23.  A pass never changes what the cache holds for a question: every
    entry of the cache it started with is in the cache it leaves, with the
    same candidates. *)
Theorem pass_keeps_cache login try_login cache w s w' :
  iteration EVENT_TYPE provider data config_path login try_login (JObj cache) w
    = (Ret s, w') →
  ∃ cache', cache_of s = JObj cache'
            ∧ ∀ q answers, assoc q cache = Some answers →
                assoc q cache' = Some answers.
Proof.
  unfold iteration, bind. cbn [is_None contains setitem].
  repeat match goal with
         | |- context [match ?m ?x with (_, _) => _ end] =>
             destruct (m x) as [[?|?|] ?] eqn:?; try done
         | |- context [if ?b then _ else _] => destruct b eqn:?
         end;
    cbv [ret]; intros [= <- _]; cbn [cache_of]; try (by eexists).
  match goal with
  | H : lift (Ok (JObj ?c)) _ = (Ret ?j, _) |- _ =>
      injection H as <- _; exists c
  end.
  split; [done|]. intros q answers Hq.
  match goal with
  | H : lift (Ok (match assoc ?question cache with _ => _ end)) _ = (Ret false, _)
    |- _ =>
      destruct (assoc question cache) eqn:Hnew; [done|];
      rewrite assoc_set_ne; [done|congruence]
  end.
Qed.

End HandshakeFurther.

(** ** The further properties on the scenario *)

Lemma ambiguous_question_skipped_witness :
  ∃ w',
    iteration (lib := Bytes.lib) Scenario.EVENT Scenario.stubborn Scenario.data
      Scenario.config_path Scenario.login_250_body 5 (JObj Cases.ambiguous_cache)
      (Scenario.after_login Cases.ambiguous)
    = (Ret (Continue (5 - 1) (JObj Cases.ambiguous_cache)), w')
    ∧ sent w' = sent (Scenario.after_login Cases.ambiguous)
                ++ [qcm_get_request (JStr "tok")]
    ∧ quiet (Scenario.after_login Cases.ambiguous) w'.
Proof.
  eapply (ambiguous_question_skipped (lib := Bytes.lib) Scenario.EVENT
            Scenario.stubborn Scenario.data Scenario.config_path
            (Scenario.after_login Cases.ambiguous) Scenario.login_250_body
            (JStr "tok") 5 Cases.ambiguous_cache "" _ (JInt 200) Scenario.qcm
            Scenario.question64 Scenario.question
            (JArr [JStr "42"; JStr "Paris"]) 2);
    reflexivity.
Defined.

Lemma challenge_loop_result_witness :
  0 ≤ 0 ∧ (0 ≤ 5 → 0 = 0).
Proof.
  apply (challenge_loop_result (lib := Bytes.lib) Scenario.EVENT Scenario.stubborn
           Scenario.data Scenario.config_path 5 Scenario.login_250_body 5
           (JObj Cases.ambiguous_cache) (Scenario.after_login Cases.ambiguous)
           0 None
           (snd (challenge_loop (lib := Bytes.lib) Scenario.EVENT Scenario.stubborn
                   Scenario.data Scenario.config_path 5 Scenario.login_250_body 5
                   (JObj Cases.ambiguous_cache)
                   (Scenario.after_login Cases.ambiguous)))).
  vm_compute. reflexivity.
Defined.

Lemma ambiguous_question_exhausts_witness :
  ∃ w',
    get_ecoledirecte_session (lib := Bytes.lib) Scenario.EVENT Scenario.stubborn
      Scenario.data Scenario.config_path 7 (Scenario.host Cases.ambiguous)
    = (Raise (QCMError qcm_exhausted), w')
    ∧ sent w' = sent (Scenario.host Cases.ambiguous)
                ++ login_request (lib := Bytes.lib) "jean" "s3cret"
                   :: replicate 5 (qcm_get_request (JStr "tok"))
    ∧ quiet (Scenario.host Cases.ambiguous) w'.
Proof.
  eapply (ambiguous_question_exhausts (lib := Bytes.lib) Scenario.EVENT
            Scenario.stubborn Scenario.data Scenario.config_path 7
            (Scenario.host Cases.ambiguous) "jean" "s3cret" "" _ (JInt 250)
            (JStr "tok") Cases.ambiguous_cache "" _ (JInt 200) Scenario.qcm
            Scenario.question64 Scenario.question
            (JArr [JStr "42"; JStr "Paris"]) 2);
    try reflexivity.
  lia.
Defined.

Lemma direct_login_witness :
  ∃ w',
    get_ecoledirecte_session (lib := Bytes.lib) Scenario.EVENT Cases.open_door
      Scenario.data Scenario.config_path 5 (Scenario.host ∅)
    = (Ret (Some Accounts.student_session), w')
    ∧ sent w' = sent (Scenario.host ∅)
                ++ [login_request (lib := Bytes.lib) "jean" "s3cret"]
    ∧ quiet (Scenario.host ∅) w'.
Proof.
  eapply (direct_login (lib := Bytes.lib) Scenario.EVENT Cases.open_door
            Scenario.data Scenario.config_path 5 (Scenario.host ∅)
            "jean" "s3cret" "" _ (JInt 200) Accounts.student_session);
    vm_compute; reflexivity.
Defined.

Lemma missing_credentials_witness :
  get_ecoledirecte_session (lib := Bytes.lib) Scenario.EVENT Scenario.honest ∅
    Scenario.config_path 5 (Scenario.host Scenario.solved)
  = (Ret None,
     with_log (Scenario.host Scenario.solved)
       (LogRecord CRITICAL (LExn (KeyError (JStr "username"))) []))
  ∧ get_ecoledirecte_session (lib := Bytes.lib) Scenario.EVENT Scenario.honest
      (<["username" := "jean"]> ∅) Scenario.config_path 5
      (Scenario.host Scenario.solved)
    = (Ret None,
       with_log (Scenario.host Scenario.solved)
         (LogRecord CRITICAL (LExn (KeyError (JStr "password"))) [])).
Proof.
  split.
  - exact (proj1 (missing_credentials (lib := Bytes.lib) Scenario.EVENT
                    Scenario.honest ∅ Scenario.config_path 5
                    (Scenario.host Scenario.solved)) eq_refl).
  - exact (proj2 (missing_credentials (lib := Bytes.lib) Scenario.EVENT
                    Scenario.honest (<["username" := "jean"]> ∅)
                    Scenario.config_path 5 (Scenario.host Scenario.solved))
             "jean" eq_refl eq_refl).
Defined.

Lemma challenge_then_login_witness :
  ∃ w',
    get_ecoledirecte_session (lib := Bytes.lib) Scenario.EVENT Scenario.honest
      Scenario.data Scenario.config_path 1 (Scenario.host Scenario.solved)
    = (Ret (Some Accounts.student_session), w')
    ∧ sent w'
      = sent (Scenario.host Scenario.solved)
        ++ [login_request (lib := Bytes.lib) "jean" "s3cret";
            qcm_get_request (JStr "tok");
            qcm_post_request (JStr "tok")
              (b64encode_utf8 (PyLib := Bytes.lib) "42");
            second_login_request (lib := Bytes.lib) "jean" "s3cret" "Y24=" "Y3Y="]
    ∧ quiet (Scenario.host Scenario.solved) w'.
Proof.
  eapply (challenge_then_login (lib := Bytes.lib) Scenario.EVENT Scenario.honest
            Scenario.data Scenario.config_path 0 (Scenario.host Scenario.solved)
            "jean" "s3cret" "" _ (JInt 250) (JStr "tok") Scenario.solved_cache
            "" _ (JInt 200) Scenario.qcm Scenario.question64 Scenario.question
            "42" "" _ (JInt 200)
            (JObj [("cn", JStr "Y24="); ("cv", JStr "Y3Y=")]) "Y24=" "Y3Y="
            "" _ (JInt 200) Accounts.student_session);
    vm_compute; reflexivity.
Defined.

Lemma challenge_without_data_witness :
  ∃ w',
    get_ecoledirecte_session (lib := Bytes.lib) Scenario.EVENT Cases.silent
      Scenario.data Scenario.config_path 1 (Scenario.host Scenario.solved)
    = (Ret None, w')
    ∧ sent w' = sent (Scenario.host Scenario.solved)
                ++ [login_request (lib := Bytes.lib) "jean" "s3cret";
                    qcm_get_request (JStr "tok")]
    ∧ quiet (Scenario.host Scenario.solved) w'
    ∧ last (logged w') = Some (LogRecord CRITICAL (LExn TypeError) []).
Proof.
  eapply (challenge_without_data (lib := Bytes.lib) Scenario.EVENT Cases.silent
            Scenario.data Scenario.config_path 0 (Scenario.host Scenario.solved)
            "jean" "s3cret" "" _ (JInt 250) (JStr "tok")
            (JObj Scenario.solved_cache) "" _ (JInt 200));
    vm_compute; reflexivity.
Defined.

Lemma pass_keeps_cache_witness :
  ∃ cache',
    cache_of
      (Continue 4
         (JObj (Cases.other_cache
                ++ [(Scenario.question, JArr [JStr "42"; JStr "Paris"])])))
    = JObj cache'
    ∧ ∀ q answers, assoc q Cases.other_cache = Some answers →
        assoc q cache' = Some answers.
Proof.
  apply (pass_keeps_cache (lib := Bytes.lib) Scenario.EVENT Scenario.stubborn
           Scenario.data Scenario.config_path Scenario.login_250_body 5
           Cases.other_cache (Scenario.after_login Cases.other) _
           (snd (iteration (lib := Bytes.lib) Scenario.EVENT Scenario.stubborn
                   Scenario.data Scenario.config_path Scenario.login_250_body 5
                   (JObj Cases.other_cache) (Scenario.after_login Cases.other)))).
  vm_compute. reflexivity.
Defined.
